(** * Eternal Ledger backend: a shallow embedding of [src/index.js]

    The gateway exposes four HTTP operations (upload evidence, bind an
    identity, record a death, search by NRIC). Every operation is a short
    sequence of awaited calls to three outside collaborators: the identity
    registry contract (through ethers), the content-addressed evidence store
    (through the Storacha client) and the local temporary directory.

    The handlers are embedded as programs of a state-and-exception monad.
    The collaborators are interfaces (type classes): a handler is verified
    against every implementation of them, so every rejected promise and
    every answer the ledger can give is covered. Each awaited outside call
    is logged, in order, in a trace of events; the temporal statements
    ("before", "issues no write") are statements about that trace.

    One operation is run at a time: what other requests or other users of
    the ledger do between two awaited calls is not part of the model. *)

From Stdlib Require Import Ascii String.
From stdpp Require Import base strings list gmap pretty.

Local Open Scope string_scope.
Local Set Warnings "-register-all".

(** ** JavaScript values *)

(** What [req.body] fields and JSON response bodies are made of. A JSON
    number is kept as an integer: the handlers only test request fields for
    truthiness and hand them on unchanged, and the numbers they produce
    themselves (block numbers) are integers. *)
Inductive JsValue : Type :=
| JUndefined
| JNull
| JBool (b : bool)
| JNum (n : Z)
| JStr (s : string)
| JArr (items : list JsValue)
| JObj (fields : list (string * JsValue)).

(** [!v] is [negb (truthy v)]. *)
Definition truthy (v : JsValue) : bool :=
  match v with
  | JUndefined | JNull => false
  | JBool b => b
  | JNum n => negb (n =? 0)%Z
  | JStr s => negb (String.eqb s "")
  | JArr _ | JObj _ => true
  end.

(** [v === s] for a string constant [s]. *)
Definition strict_eq_str (v : JsValue) (s : string) : bool :=
  match v with
  | JStr t => String.eqb t s
  | _ => false
  end.

(** Truthiness of a BigInt ([0n] is falsy). *)
Definition truthy_bigint (n : N) : bool := negb (n =? 0)%N.

(** ** Promises: a value or a rejection carrying [error.message] *)

Inductive Outcome (A : Type) : Type :=
| Ok (a : A)
| Thrown (message : string).
Arguments Ok {A} a.
Arguments Thrown {A} message.

(** ** Data exchanged with the collaborators *)

Definition Address := string.

(** [ethers.ZeroAddress] *)
Definition ZeroAddress : Address := "0x0000000000000000000000000000000000000000".

(** The object [contract.bindIdentity] / [contract.recordDeath] resolve to. *)
Record Tx : Type := { hash : string }.

(** What [tx.wait()] resolves to. *)
Record Receipt : Type := { blockNumber : Z }.

(** A row of the contract's [records] table. *)
Record DeathRecord : Type := { metadataCID : string; timestamp : N }.

(** An entry of [req.files] (express-fileupload). *)
Record UploadedFile : Type := { name : string; mimetype : string; data : string }.

(** An element of what [filesFromPaths] resolves to. *)
Record FileLike : Type := { fl_path : string; fl_data : string }.

(** [process.env] (the six variables the program reads). *)
Record Env : Type := {
  IPFS_STORAGE_KEY : option string;
  IPFS_STORAGE_PROOF : option string;
  IPFS_STORAGE_SPACE : option string;
  ETHEREUM_PROVIDER_URL : option string;
  WALLET_PRIVATE_KEY : option string;
  CONTRACT_ADDRESS : option string
}.

(** An HTTP response: [res.status(s).json(b)]; [res.json(b)] has status 200. *)
Record Response : Type := { status : Z; body : JsValue }.

Definition json (b : JsValue) : Response := {| status := 200; body := b |}.
Definition status_json (s : Z) (b : JsValue) : Response := {| status := s; body := b |}.

(** ** The collaborators, as interfaces *)

(** Pure library functions the handlers call: [ethers.isAddress],
    [path.join] and [os.tmpdir()]. *)
Class Platform : Type := {
  isAddress : JsValue -> bool;
  join : string -> string -> string;
  tmpdir : string
}.

(** The identity registry as the program sees it through its ABI: one
    method per ABI entry the handlers call. View methods leave the ledger as
    it is; the two non-payable methods and [tx.wait()] may change it. Every
    method may reject. [new_wallet] stands for the three constructors of
    [initializeContract] and yields the signer's address. *)
Class Contract (L : Type) : Type := {
  new_wallet : string -> string -> string -> Outcome Address;
  nricToWallet : L -> JsValue -> Outcome Address;
  walletToNric : L -> JsValue -> Outcome string;
  authorizedRegistrars : L -> Address -> Outcome bool;
  isDeceased : L -> JsValue -> Outcome bool;
  getTokenByNric : L -> JsValue -> Outcome N;
  records : L -> N -> Outcome DeathRecord;
  bindIdentity : L -> Address -> JsValue -> JsValue -> Outcome Tx * L;
  recordDeath : L -> Address -> JsValue -> JsValue -> Outcome Tx * L;
  wait : L -> Tx -> Outcome Receipt * L
}.

(** The evidence store: [store_connect] stands for the body of
    [initializeStorachaClient] after its configuration check (parse the key,
    create the client, add and select the space); [uploadFile] is
    [client.uploadFile] followed by [cid.toString()]. *)
Class EvidenceStore (S : Type) : Type := {
  store_connect : S -> string -> string -> string -> Outcome unit * S;
  uploadFile : S -> FileLike -> Outcome string * S
}.

(** The local file system: [file.mv], [filesFromPaths] and [fs.unlink]. *)
Class TempFs (F : Type) : Type := {
  mv : F -> UploadedFile -> string -> Outcome unit * F;
  filesFromPaths : F -> list string -> Outcome (list FileLike) * F;
  unlink : F -> string -> Outcome unit * F
}.

(** ** Events: the outside calls an operation makes, with their results *)

Inductive Event : Type :=
| ENricToWallet (nric : JsValue) (r : Outcome Address)
| EWalletToNric (wallet : JsValue) (r : Outcome string)
| EAuthorizedRegistrars (registrar : Address) (r : Outcome bool)
| EIsDeceased (nric : JsValue) (r : Outcome bool)
| EGetTokenByNric (nric : JsValue) (r : Outcome N)
| ERecords (tokenId : N) (r : Outcome DeathRecord)
| EBindIdentity (nric wallet : JsValue) (r : Outcome Tx)
| ERecordDeath (nric cid : JsValue) (r : Outcome Tx)
| EWait (tx : Tx) (r : Outcome Receipt)
| EMv (path : string) (r : Outcome unit)
| EStoreConnect (r : Outcome unit)
| EFilesFromPaths (paths : list string) (r : Outcome (list FileLike))
| EUploadFile (f : FileLike) (r : Outcome string)
| EUnlink (path : string) (r : Outcome unit).

(** A ledger write: a call of one of the two state-changing methods. *)
Definition is_write (e : Event) : bool :=
  match e with
  | EBindIdentity _ _ _ | ERecordDeath _ _ _ => true
  | _ => false
  end.

(** A step of the evidence upload: staging, store-client initialization,
    reading the staged file back, submission, removal of the staged file. *)
Definition is_upload_step (e : Event) : bool :=
  match e with
  | EMv _ _ | EStoreConnect _ | EFilesFromPaths _ _ | EUploadFile _ _ | EUnlink _ _ => true
  | _ => false
  end.

(** An authorization read that returned true. *)
Definition is_grant (e : Event) : bool :=
  match e with
  | EAuthorizedRegistrars _ (Ok true) => true
  | _ => false
  end.

(** Every write of the trace comes after a grant ([granted]: one was
    already seen). *)
Fixpoint guarded (granted : bool) (tr : list Event) : bool :=
  match tr with
  | [] => true
  | e :: tr' => (negb (is_write e) || granted) && guarded (granted || is_grant e) tr'
  end.

(** The transaction a write resolved to, if the event is a resolved write. *)
Definition written_tx (e : Event) : option Tx :=
  match e with
  | EBindIdentity _ _ (Ok tx) | ERecordDeath _ _ (Ok tx) => Some tx
  | _ => None
  end.

(** The message of the rejection, if the outside call of the event rejected. *)
Definition rejection (e : Event) : option string :=
  match e with
  | ENricToWallet _ (Thrown m) | EWalletToNric _ (Thrown m)
  | EAuthorizedRegistrars _ (Thrown m) | EIsDeceased _ (Thrown m)
  | EGetTokenByNric _ (Thrown m) | ERecords _ (Thrown m)
  | EBindIdentity _ _ (Thrown m) | ERecordDeath _ _ (Thrown m) | EWait _ (Thrown m)
  | EMv _ (Thrown m) | EStoreConnect (Thrown m) | EFilesFromPaths _ (Thrown m)
  | EUploadFile _ (Thrown m) | EUnlink _ (Thrown m) => Some m
  | _ => None
  end.

(** ** String helpers *)

(** [String.prototype.trim], on the ASCII part of its white space set. *)
Fixpoint trim_start (s : string) : string :=
  match s with
  | String a s' => if Ascii.is_space a then trim_start s' else s
  | EmptyString => EmptyString
  end.

Definition trim (s : string) : string :=
  String.rev (trim_start (String.rev (trim_start s))).

(** [!v] for [v = process.env.X?.trim()]: undefined or the empty string. *)
Definition missing (v : option string) : bool :=
  match v with
  | None => true
  | Some s => String.eqb s ""
  end.

(** A configuration variable that is unset, empty or made of white space
    only. *)
Fixpoint all_space (s : string) : bool :=
  match s with
  | EmptyString => true
  | String a s' => Ascii.is_space a && all_space s'
  end.

Definition blank (v : option string) : bool :=
  match v with
  | None => true
  | Some s => all_space s
  end.

(** [allowedTypes.includes(m)] *)
Definition includes (l : list string) (m : string) : bool :=
  existsb (String.eqb m) l.

(** ** The monad of the handlers *)

Section Gateway.
Context `{Platform} {L S F : Type} `{Contract L} `{EvidenceStore S} `{TempFs F}.

(** Everything outside the process that an operation can touch or read. *)
Record World : Type := {
  ledger : L;
  store : S;
  disk : F;
  now : N;
  env : Env
}.

(** The state threaded through an operation: the world and the trace of
    the outside calls made so far (oldest first). *)
Record St : Type := { world : World; log : list Event }.

(** An async function: runs on a state, resolves or rejects. *)
Definition M (A : Type) : Type := St -> Outcome A * St.

#[local] Instance M_ret : MRet M := fun A a st => (Ok a, st).
#[local] Instance M_bind : MBind M := fun A B k m st =>
  match m st with
  | (Ok a, st') => k a st'
  | (Thrown e, st') => (Thrown e, st')
  end.

(** [throw new Error(message)] *)
Definition throw {A : Type} (message : string) : M A :=
  fun st => (Thrown message, st).

(** Await an outside call [f] on the world and log it as [ev result]. *)
Definition await {A : Type} (f : World -> Outcome A * World)
    (ev : Outcome A -> Event) : M A :=
  fun st =>
    let '(r, w') := f (world st) in
    (r, {| world := w'; log := log st ++ [ev r] |}).

(** Read the world without an outside call ([process.env], [Date.now()]). *)
Definition ask {A : Type} (f : World -> A) : M A :=
  fun st => (Ok (f (world st)), st).

(** [try { m } catch (error) { h(error.message) }] around a handler body. *)
Definition try_catch (m : M Response) (h : string -> Response) : St -> Response * St :=
  fun st =>
    match m st with
    | (Ok r, st') => (r, st')
    | (Thrown e, st') => (h e, st')
    end.

(** Run a handler on a world, from an empty trace. *)
Definition serve (h : St -> Response * St) (w : World) : Response * World * list Event :=
  let '(r, st) := h {| world := w; log := [] |} in (r, world st, log st).

(** Run an async function on a world, from an empty trace. *)
Definition run {A : Type} (m : M A) (w : World) : Outcome A * World * list Event :=
  let '(r, st) := m {| world := w; log := [] |} in (r, world st, log st).

(** *** Outside calls *)

Definition with_ledger (w : World) (l : L) : World :=
  {| ledger := l; store := store w; disk := disk w; now := now w; env := env w |}.
Definition with_store (w : World) (s : S) : World :=
  {| ledger := ledger w; store := s; disk := disk w; now := now w; env := env w |}.
Definition with_disk (w : World) (d : F) : World :=
  {| ledger := ledger w; store := store w; disk := d; now := now w; env := env w |}.

Definition view {A : Type} (f : L -> Outcome A) (ev : Outcome A -> Event) : M A :=
  await (fun w => (f (ledger w), w)) ev.
Definition send {A : Type} (f : L -> Outcome A * L) (ev : Outcome A -> Event) : M A :=
  await (fun w => let '(r, l) := f (ledger w) in (r, with_ledger w l)) ev.
Definition on_store {A : Type} (f : S -> Outcome A * S) (ev : Outcome A -> Event) : M A :=
  await (fun w => let '(r, s) := f (store w) in (r, with_store w s)) ev.
Definition on_disk {A : Type} (f : F -> Outcome A * F) (ev : Outcome A -> Event) : M A :=
  await (fun w => let '(r, d) := f (disk w) in (r, with_disk w d)) ev.

(** *** [initializeStorachaClient] *)
Definition initializeStorachaClient : M unit :=
  e ← ask env;
  let key := trim <$> IPFS_STORAGE_KEY e in
  let proofBase64 := trim <$> IPFS_STORAGE_PROOF e in
  let spaceDID := trim <$> IPFS_STORAGE_SPACE e in
  match key, proofBase64, spaceDID with
  | Some k, Some p, Some d =>
      if missing key || missing proofBase64 || missing spaceDID
      then throw "Missing one of: IPFS_STORAGE_KEY, IPFS_STORAGE_PROOF, IPFS_STORAGE_SPACE"
      else on_store (fun s => store_connect s k p d) EStoreConnect
  | _, _, _ =>
      throw "Missing one of: IPFS_STORAGE_KEY, IPFS_STORAGE_PROOF, IPFS_STORAGE_SPACE"
  end.

(** *** [initializeContract]: resolves to the signer wallet (its address);
    the contract handle is the world's ledger. *)
Definition initializeContract : M Address :=
  e ← ask env;
  let providerUrl := trim <$> ETHEREUM_PROVIDER_URL e in
  let privateKey := trim <$> WALLET_PRIVATE_KEY e in
  let contractAddress := trim <$> CONTRACT_ADDRESS e in
  match providerUrl, privateKey, contractAddress with
  | Some u, Some k, Some a =>
      if missing providerUrl || missing privateKey || missing contractAddress
      then throw "Missing one of: ETHEREUM_PROVIDER_URL, WALLET_PRIVATE_KEY, CONTRACT_ADDRESS"
      else match new_wallet u k a with
           | Ok signer => mret signer
           | Thrown m => throw m
           end
  | _, _, _ =>
      throw "Missing one of: ETHEREUM_PROVIDER_URL, WALLET_PRIVATE_KEY, CONTRACT_ADDRESS"
  end.

(** *** [uploadFileToIPFS] *)
Definition allowedTypes : list string :=
  ["application/pdf"; "image/jpeg"; "image/png"; "application/json"].

Definition tempFilePath_of (t : N) (file : UploadedFile) : string :=
  join tmpdir ("upload-" +:+ pretty t +:+ "-" +:+ name file).

Definition uploadFileToIPFS (file : UploadedFile) : M string :=
  if negb (includes allowedTypes (mimetype file))
  then throw "Invalid file type. Only PDF, JPEG, PNG, or JSON allowed."
  else
    t ← ask now;
    let tempFilePath := tempFilePath_of t file in
    _ ← on_disk (fun d => mv d file tempFilePath) (EMv tempFilePath);
    _ ← initializeStorachaClient;
    files ← on_disk (fun d => filesFromPaths d [tempFilePath]) (EFilesFromPaths [tempFilePath]);
    match files with
    | [] => throw "Failed to load file from temp path"
    | f0 :: _ =>
        cid ← on_store (fun s => uploadFile s f0) (EUploadFile f0);
        _ ← on_disk (fun d => unlink d tempFilePath) (EUnlink tempFilePath);
        mret cid
    end.

(** ** Requests *)

(** [POST /upload]: [req.files?.file]. *)
Record UploadReq : Type := { u_file : option UploadedFile }.

(** [POST /bind-identity]: the two fields read from [req.body]
    ([JUndefined] when absent). *)
Record BindReq : Type := { b_nric : JsValue; b_wallet : JsValue }.

(** [POST /record-death]: the two fields read from [req.body] and
    [req.files?.file]. *)
Record DeathReq : Type := {
  d_nric : JsValue;
  d_metadataCID : JsValue;
  d_file : option UploadedFile
}.

Definition error_body (message : string) : JsValue :=
  JObj [("error", JStr message)].

(** The [catch] block shared by the three POST handlers. *)
Definition catch_500 (message : string) : Response :=
  status_json 500 (error_body message).

(** ** The handlers *)

(** *** [app.post('/upload')] *)
Definition upload (req : UploadReq) : St -> Response * St :=
  try_catch
    (match u_file req with
     | None => mret (status_json 400 (error_body "No file uploaded"))
     | Some uploadedFile =>
         cid ← uploadFileToIPFS uploadedFile;
         mret (json (JObj [("cid", JStr cid)]))
     end)
    catch_500.

(** *** [app.post('/bind-identity')] *)
Definition bind_identity (req : BindReq) : St -> Response * St :=
  try_catch
    (let nric := b_nric req in
     let wallet := b_wallet req in
     if negb (truthy nric) || negb (truthy wallet)
     then mret (status_json 400 (error_body "NRIC and wallet address are required"))
     else if negb (isAddress wallet)
     then mret (status_json 400 (error_body "Invalid wallet address"))
     else if strict_eq_str wallet ZeroAddress
     then mret (status_json 400 (error_body "Wallet cannot be zero address"))
     else
       signerWallet ← initializeContract;
       existingWallet ← view (fun l => nricToWallet l nric) (ENricToWallet nric);
       existingNric ← view (fun l => walletToNric l wallet) (EWalletToNric wallet);
       if negb (String.eqb existingWallet ZeroAddress)
       then mret (status_json 400
                    (JObj [("error", JStr "NRIC already bound");
                           ("existingWallet", JStr existingWallet)]))
       else if negb (String.eqb existingNric "")
       then mret (status_json 400
                    (JObj [("error", JStr "Wallet already bound");
                           ("existingNric", JStr existingNric)]))
       else
         let registrarAddress := signerWallet in
         isAuthorized ← view (fun l => authorizedRegistrars l registrarAddress)
                             (EAuthorizedRegistrars registrarAddress);
         if negb isAuthorized
         then mret (status_json 403 (error_body "Not authorized registrar"))
         else
           tx ← send (fun l => bindIdentity l signerWallet nric wallet)
                     (EBindIdentity nric wallet);
           receipt ← send (fun l => wait l tx) (EWait tx);
           mret (json (JObj [("message", JStr "Identity bound successfully");
                             ("transactionHash", JStr (hash tx));
                             ("blockNumber", JNum (blockNumber receipt))])))
    catch_500.

(** *** [app.post('/record-death')] *)
Definition record_death (req : DeathReq) : St -> Response * St :=
  try_catch
    (let nric := d_nric req in
     let metadataCID := d_metadataCID req in
     if negb (truthy nric)
     then mret (status_json 400 (error_body "NRIC is required"))
     else
       (* [Some finalCID], or [None] for the early return inside the [if] *)
       resolved ←
         (if negb (truthy metadataCID)
          then match d_file req with
               | None => mret None
               | Some uploadedFile =>
                   cid ← uploadFileToIPFS uploadedFile; mret (Some (JStr cid))
               end
          else mret (Some metadataCID));
       match resolved with
       | None => mret (status_json 400 (error_body "Either metadataCID or file is required"))
       | Some finalCID =>
           signerWallet ← initializeContract;
           let registrarAddress := signerWallet in
           isAuthorized ← view (fun l => authorizedRegistrars l registrarAddress)
                               (EAuthorizedRegistrars registrarAddress);
           if negb isAuthorized
           then mret (status_json 403 (error_body "Not authorized registrar"))
           else
             boundWallet ← view (fun l => nricToWallet l nric) (ENricToWallet nric);
             if String.eqb boundWallet ZeroAddress
             then mret (status_json 404 (error_body "NRIC not registered"))
             else
               tx ← send (fun l => recordDeath l signerWallet nric finalCID)
                         (ERecordDeath nric finalCID);
               receipt ← send (fun l => wait l tx) (EWait tx);
               mret (json (JObj [("message", JStr "Death recorded and SBT minted");
                                 ("metadataCID", finalCID);
                                 ("transactionHash", JStr (hash tx));
                                 ("blockNumber", JNum (blockNumber receipt))]))
       end)
    catch_500.

(** *** [app.get('/search-by-nric/:nric')] *)

(** The object the handler rebuilds from the fetched record. *)
Definition record_json (r : DeathRecord) : JsValue :=
  JObj [("metadataCID", JStr (metadataCID r));
        ("timestamp", JStr (pretty (timestamp r)))].

Definition search_by_nric (nric : string) : St -> Response * St :=
  try_catch
    (_ ← initializeContract;
     wallet ← view (fun l => nricToWallet l (JStr nric)) (ENricToWallet (JStr nric));
     if String.eqb wallet ZeroAddress
     then mret (status_json 404 (error_body "NRIC not registered"))
     else
       deceased ← view (fun l => isDeceased l (JStr nric)) (EIsDeceased (JStr nric));
       (* [tokenId] and [record] start as null *)
       fetched ←
         (if deceased : bool
          then tokenId ← view (fun l => getTokenByNric l (JStr nric))
                              (EGetTokenByNric (JStr nric));
               record ← view (fun l => records l tokenId) (ERecords tokenId);
               mret (Some tokenId, Some record)
          else mret (None, None));
       let '(tokenId, record) := fetched in
       tokenURI ←
         (if deceased
          then match record with
               | Some r => mret (JStr ("ipfs://" +:+ metadataCID r))
               | None => throw "Cannot read properties of null (reading 'metadataCID')"
               end
          else mret JNull);
       mret (json (JObj [("nric", JStr nric);
                         ("wallet", JStr wallet);
                         ("isDeceased", JBool deceased);
                         ("tokenId", match tokenId with
                                     | Some t => if truthy_bigint t
                                                 then JStr (pretty t) else JNull
                                     | None => JNull
                                     end);
                         ("record", from_option record_json JNull record);
                         ("tokenURI", tokenURI)])))
    (fun message =>
       status_json 500 (JObj [("error", JStr "Failed to search NRIC");
                              ("details", JStr message)])).

End Gateway.

Arguments World : clear implicits.
Arguments St : clear implicits.

(** ** Observing a handler run *)

Section Observations.
Context `{Platform} {L S F : Type} `{Contract L} `{EvidenceStore S} `{TempFs F}.

(** The response sent, the world left behind and the outside calls made. *)
Definition answer (h : St L S F -> Response * St L S F) (w : World L S F) : Response :=
  (serve h w).1.1.
Definition after (h : St L S F -> Response * St L S F) (w : World L S F) : World L S F :=
  (serve h w).1.2.
Definition trace (h : St L S F -> Response * St L S F) (w : World L S F) : list Event :=
  (serve h w).2.

(** The wallet the process signs with: what [initializeContract] resolves to. *)
Definition callerWallet (w : World L S F) : Outcome Address :=
  (run initializeContract w).1.1.

(** The two operations that write to the ledger. *)
Inductive Mutation : Type :=
| Bind (req : BindReq)
| RecordDeath (req : DeathReq).

Definition handle (op : Mutation) : St L S F -> Response * St L S F :=
  match op with
  | Bind req => bind_identity req
  | RecordDeath req => record_death req
  end.

(** The four routes of the application. *)
Inductive Request : Type :=
| PostUpload (req : UploadReq)
| PostBindIdentity (req : BindReq)
| PostRecordDeath (req : DeathReq)
| GetSearchByNric (nric : string).

Definition app (r : Request) : St L S F -> Response * St L S F :=
  match r with
  | PostUpload req => upload req
  | PostBindIdentity req => bind_identity req
  | PostRecordDeath req => record_death req
  | GetSearchByNric nric => search_by_nric nric
  end.

(** The status codes a route can answer with. *)
Definition statuses (r : Request) : list Z :=
  match r with
  | PostUpload _ => [200; 400; 500]
  | PostBindIdentity _ => [200; 400; 403; 500]
  | PostRecordDeath _ => [200; 400; 403; 404; 500]
  | GetSearchByNric _ => [200; 404; 500]
  end%Z.

(** The body a route's [catch] block answers with. *)
Definition caught (r : Request) (message : string) : Response :=
  match r with
  | GetSearchByNric _ =>
      status_json 500 (JObj [("error", JStr "Failed to search NRIC");
                             ("details", JStr message)])
  | _ => status_json 500 (error_body message)
  end.

End Observations.

(** [obj.key] on a JSON object. *)
Fixpoint lookup_field (key : string) (fields : list (string * JsValue)) : JsValue :=
  match fields with
  | [] => JUndefined
  | (k, v) :: rest => if String.eqb k key then v else lookup_field key rest
  end.

Definition field (key : string) (v : JsValue) : JsValue :=
  match v with
  | JObj fields => lookup_field key fields
  | _ => JUndefined
  end.

(** ** In-memory collaborators

    Small implementations of the three interfaces, used to run the handlers
    on concrete requests. They are test doubles: the theorems below hold for
    every implementation. *)
Module InMemory.

Definition is_hex (a : ascii) : bool :=
  let n := Ascii.N_of_ascii a in
  ((48 <=? n) && (n <=? 57) || (65 <=? n) && (n <=? 70) || (97 <=? n) && (n <=? 102))%N.

Fixpoint all_hex (s : string) : bool :=
  match s with
  | EmptyString => true
  | String a s' => is_hex a && all_hex s'
  end.

(** Addresses are accepted by shape only (0x and forty hex digits). *)
#[export] Instance platform : Platform := {|
  isAddress v :=
    match v with
    | JStr (String "0"%char (String "x"%char digits)) =>
        (String.length digits =? 40)%nat && all_hex digits
    | _ => false
    end;
  join dir file := dir +:+ "/" +:+ file;
  tmpdir := "/tmp"
|}.

(** A registry held in finite maps. [down] lists the methods whose calls
    the RPC endpoint rejects. *)
Record Chain : Type := {
  wallets : gmap string Address;
  nrics : gmap Address string;
  registrars : gset Address;
  tokens : gmap string N;
  deaths : gmap N DeathRecord;
  height : Z;
  clock : N;
  down : list string
}.

Definition rpc {A : Type} (c : Chain) (method : string) (r : Outcome A) : Outcome A :=
  if includes (down c) method then Thrown ("could not call " +:+ method) else r.

Definition with_string {A : Type} (v : JsValue) (k : string -> Outcome A) : Outcome A :=
  match v with
  | JStr s => k s
  | _ => Thrown "invalid string value"
  end.

Definition chain_bind (c : Chain) (signer : Address) (nric wallet : JsValue) : Outcome Tx * Chain :=
  match nric, wallet with
  | JStr n, JStr a =>
      if includes (down c) "bindIdentity" then (Thrown "could not call bindIdentity", c)
      else if negb (bool_decide (signer ∈ registrars c)) then (Thrown "execution reverted", c)
      else
        (Ok {| hash := "0xb1" |},
         {| wallets := <[n := a]> (wallets c); nrics := <[a := n]> (nrics c);
            registrars := registrars c; tokens := tokens c; deaths := deaths c;
            height := height c + 1; clock := clock c; down := down c |})
  | _, _ => (Thrown "invalid argument", c)
  end.

Definition chain_death (c : Chain) (signer : Address) (nric cid : JsValue) : Outcome Tx * Chain :=
  match nric, cid with
  | JStr n, JStr m =>
      if includes (down c) "recordDeath" then (Thrown "could not call recordDeath", c)
      else if negb (bool_decide (signer ∈ registrars c)) then (Thrown "execution reverted", c)
      else
        let id := N.of_nat (size (deaths c)) in
        (Ok {| hash := "0xd1" |},
         {| wallets := wallets c; nrics := nrics c; registrars := registrars c;
            tokens := <[n := id]> (tokens c);
            deaths := <[id := {| metadataCID := m; timestamp := clock c |}]> (deaths c);
            height := height c + 1; clock := clock c; down := down c |})
  | _, _ => (Thrown "invalid argument", c)
  end.

#[export] Instance chain : Contract Chain := {|
  new_wallet url key address :=
    if String.eqb key "0xkey" then Ok "0x00000000000000000000000000000000000000aa"
    else Thrown "invalid private key";
  nricToWallet c nric :=
    rpc c "nricToWallet" (with_string nric (fun n => Ok (default ZeroAddress (wallets c !! n))));
  walletToNric c wallet :=
    rpc c "walletToNric" (with_string wallet (fun a => Ok (default "" (nrics c !! a))));
  authorizedRegistrars c a :=
    rpc c "authorizedRegistrars" (Ok (bool_decide (a ∈ registrars c)));
  isDeceased c nric :=
    rpc c "isDeceased" (with_string nric (fun n => Ok (bool_decide (is_Some (tokens c !! n)))));
  getTokenByNric c nric :=
    rpc c "getTokenByNric" (with_string nric (fun n => Ok (default 0%N (tokens c !! n))));
  records c id :=
    rpc c "records" (Ok (default {| metadataCID := ""; timestamp := 0 |} (deaths c !! id)));
  bindIdentity := chain_bind;
  recordDeath := chain_death;
  wait c tx := (rpc c "wait" (Ok {| blockNumber := height c |}), c)
|}.

(** A store that numbers the blobs it is given. *)
Record Ipfs : Type := { blobs : list string; reachable : bool }.

#[export] Instance ipfs : EvidenceStore Ipfs := {|
  store_connect s key proof space :=
    (if reachable s then Ok () else Thrown "store unreachable", s);
  uploadFile s f :=
    if reachable s
    then (Ok ("bafy" +:+ pretty (length (blobs s))),
          {| blobs := blobs s ++ [fl_data f]; reachable := reachable s |})
    else (Thrown "store unreachable", s)
|}.

(** A temporary directory: path to contents. *)
Record Tmp : Type := { files : gmap string string; writable : bool }.

Fixpoint load (d : Tmp) (paths : list string) : Outcome (list FileLike) :=
  match paths with
  | [] => Ok []
  | p :: rest =>
      match files d !! p, load d rest with
      | Some c, Ok fs => Ok ({| fl_path := p; fl_data := c |} :: fs)
      | None, _ => Thrown ("ENOENT: " +:+ p)
      | _, Thrown m => Thrown m
      end
  end.

#[export] Instance tmp : TempFs Tmp := {|
  mv d file path :=
    if writable d
    then (Ok (), {| files := <[path := data file]> (files d); writable := writable d |})
    else (Thrown "EACCES", d);
  filesFromPaths d paths := (load d paths, d);
  unlink d path :=
    match files d !! path with
    | Some _ => (Ok (), {| files := delete path (files d); writable := writable d |})
    | None => (Thrown ("ENOENT: " +:+ path), d)
    end
|}.

Definition good_env : Env := {|
  IPFS_STORAGE_KEY := Some "MgCkey";
  IPFS_STORAGE_PROOF := Some "proof";
  IPFS_STORAGE_SPACE := Some "did:key:space";
  ETHEREUM_PROVIDER_URL := Some "http://localhost:8545";
  WALLET_PRIVATE_KEY := Some " 0xkey ";
  CONTRACT_ADDRESS := Some "0x00000000000000000000000000000000000000cc"
|}.

Definition registrar : Address := "0x00000000000000000000000000000000000000aa".
Definition alice : Address := "0x00000000000000000000000000000000000000a1".
Definition bob : Address := "0x00000000000000000000000000000000000000b2".

(** An empty registry with the process wallet authorized. *)
Definition genesis : Chain := {|
  wallets := ∅; nrics := ∅; registrars := {[ registrar ]}; tokens := ∅; deaths := ∅;
  height := 100; clock := 1700000000; down := []
|}.

Definition world_of (c : Chain) (e : Env) : World Chain Ipfs Tmp := {|
  ledger := c;
  store := {| blobs := []; reachable := true |};
  disk := {| files := ∅; writable := true |};
  now := 1700000000000;
  env := e
|}.

Definition pdf : UploadedFile :=
  {| name := "cert.pdf"; mimetype := "application/pdf"; data := "%PDF-1.7" |}.
Definition txt : UploadedFile :=
  {| name := "notes.txt"; mimetype := "text/plain"; data := "hello" |}.

End InMemory.

(** ** Concrete ledgers, configurations and requests *)

Module Scenarios.
Import InMemory.

Definition nric1 : string := "S1234567A".

(** [nric1] is bound to [alice]. *)
Definition registered : Chain := {|
  wallets := {[ nric1 := alice ]}; nrics := {[ alice := nric1 ]};
  registrars := {[ registrar ]}; tokens := ∅; deaths := ∅;
  height := 101; clock := 1700000100; down := []
|}.

(** As [registered], with the [walletToNric] calls rejected by the endpoint. *)
Definition registered_flaky : Chain := {|
  wallets := wallets registered; nrics := nrics registered;
  registrars := registrars registered; tokens := ∅; deaths := ∅;
  height := 101; clock := 1700000100; down := ["walletToNric"]
|}.

(** As [registered], with no authorized registrar. *)
Definition registered_closed : Chain := {|
  wallets := wallets registered; nrics := nrics registered;
  registrars := ∅; tokens := ∅; deaths := ∅;
  height := 101; clock := 1700000100; down := []
|}.

Definition certificate : DeathRecord :=
  {| metadataCID := "bafycert"; timestamp := 1700000200 |}.

(** [nric1] is bound to [alice] and its death is recorded under token [t]. *)
Definition mourned (t : N) : Chain := {|
  wallets := wallets registered; nrics := nrics registered;
  registrars := registrars registered;
  tokens := {[ nric1 := t ]}; deaths := {[ t := certificate ]};
  height := 102; clock := 1700000300; down := []
|}.

(** The configuration without the evidence store's signing key. *)
Definition env_without_store_key : Env := {|
  IPFS_STORAGE_KEY := None;
  IPFS_STORAGE_PROOF := IPFS_STORAGE_PROOF good_env;
  IPFS_STORAGE_SPACE := IPFS_STORAGE_SPACE good_env;
  ETHEREUM_PROVIDER_URL := ETHEREUM_PROVIDER_URL good_env;
  WALLET_PRIVATE_KEY := WALLET_PRIVATE_KEY good_env;
  CONTRACT_ADDRESS := CONTRACT_ADDRESS good_env
|}.

Definition staged_pdf : string := "/tmp/upload-1700000000000-cert.pdf".

Definition bind_alice : BindReq := {| b_nric := JStr nric1; b_wallet := JStr alice |}.
Definition bind_bob : BindReq := {| b_nric := JStr nric1; b_wallet := JStr bob |}.

(** A record-death request carrying a PDF and no [metadataCID]. *)
Definition death_with_pdf : DeathReq :=
  {| d_nric := JStr nric1; d_metadataCID := JUndefined; d_file := Some pdf |}.

(** A record-death request with a [metadataCID] and no file. *)
Definition death_with_cid : DeathReq :=
  {| d_nric := JStr nric1; d_metadataCID := JStr "bafycert"; d_file := None |}.

(** A record-death request whose [metadataCID] is not a CID at all and
    whose file is of a type that is not allowed. *)
Definition death_with_odd_cid : DeathReq :=
  {| d_nric := JStr nric1; d_metadataCID := JStr "not a cid"; d_file := Some txt |}.

(** What [filesFromPaths] yields for the staged PDF. *)
Definition staged_pdf_file : FileLike :=
  {| fl_path := staged_pdf; fl_data := "%PDF-1.7" |}.

(** As [genesis], with the [wait] calls rejected by the endpoint. *)
Definition genesis_stalled : Chain := {|
  wallets := ∅; nrics := ∅; registrars := {[ registrar ]}; tokens := ∅; deaths := ∅;
  height := 100; clock := 1700000000; down := ["wait"]
|}.

(** The configuration with a private key made of spaces. *)
Definition env_with_blank_key : Env := {|
  IPFS_STORAGE_KEY := IPFS_STORAGE_KEY good_env;
  IPFS_STORAGE_PROOF := IPFS_STORAGE_PROOF good_env;
  IPFS_STORAGE_SPACE := IPFS_STORAGE_SPACE good_env;
  ETHEREUM_PROVIDER_URL := ETHEREUM_PROVIDER_URL good_env;
  WALLET_PRIVATE_KEY := Some "   ";
  CONTRACT_ADDRESS := CONTRACT_ADDRESS good_env
|}.

Definition nric2 : string := "T7654321B".


(** A bind request for a fresh NRIC and a wallet that is already bound. *)
Definition bind_alice_again : BindReq :=
  {| b_nric := JStr nric2; b_wallet := JStr alice |}.


(** The transactions the in-memory ledger resolves its writes to. *)
Definition bind_tx : Tx := {| hash := "0xb1" |}.
Definition death_tx : Tx := {| hash := "0xd1" |}.

Definition fresh_world : World Chain Ipfs Tmp := world_of genesis good_env.
Definition stalled_world : World Chain Ipfs Tmp := world_of genesis_stalled good_env.
Definition walletless_world : World Chain Ipfs Tmp := world_of genesis env_with_blank_key.
Definition keyless_world : World Chain Ipfs Tmp := world_of genesis env_without_store_key.
Definition registered_world : World Chain Ipfs Tmp := world_of registered good_env.
Definition flaky_world : World Chain Ipfs Tmp := world_of registered_flaky good_env.
Definition closed_world : World Chain Ipfs Tmp := world_of registered_closed good_env.
Definition mourned_world (t : N) : World Chain Ipfs Tmp := world_of (mourned t) good_env.

End Scenarios.

(** ** Proof automation *)

(** Unfold the handlers and the monad, down to the outside calls. The
    upload helper is kept folded: the handlers that call it are verified
    from its frame lemma. *)
Ltac unfold_handlers :=
  unfold upload, bind_identity, record_death, search_by_nric, try_catch, catch_500,
    initializeContract, initializeStorachaClient,
    view, send, on_store, on_disk, await, ask, throw,
    mbind, M_bind, mret, M_ret;
  simpl.

(** Case on the scrutinee of a [match] of the goal that is itself free of
    [match]: the test or the outside call the run has reached. *)
Ltac branch :=
  match goal with
  | |- context [match ?x with _ => _ end] =>
      lazymatch x with
      | context [match _ with _ => _ end] => fail
      | _ => destruct x eqn:?
      end
  end.

(** Follow every branch of the run in the goal: one case per result of an
    outside call. *)
Ltac branches := repeat (branch; simplify_eq; simpl).

(** Name the response, final world and trace of the handler run the goal
    and the hypotheses speak of, leaving the run as a premise of the goal. *)
Ltac observe :=
  unfold answer, after, trace in *;
  let Hrun := fresh "Hrun" in
  match goal with
  | |- context [serve ?h ?w] =>
      destruct (serve h w) as [[? ?] ?] eqn:Hrun; simpl in *;
      revert Hrun; unfold serve
  end.

(** Turn boolean string comparisons in the context into (dis)equalities. *)
Ltac eqb_facts :=
  repeat match goal with
  | H : negb _ = true |- _ => apply negb_true_iff in H
  | H : negb _ = false |- _ => apply negb_false_iff in H
  | H : String.eqb _ _ = true |- _ => apply String.eqb_eq in H
  | H : String.eqb _ _ = false |- _ => apply String.eqb_neq in H
  end.

(** ** Traces *)

Lemma guarded_split granted (tr pre : list Event) e post :
  guarded granted tr = true -> tr = (pre ++ e :: post)%list -> is_write e = true ->
  granted = true \/ exists a, EAuthorizedRegistrars a (Ok true) ∈ pre.
Proof.
  revert granted tr. induction pre as [|e0 pre IH]; intros granted tr Hg -> Hw; simpl in Hg.
  - rewrite Hw in Hg. destruct granted; [by left|done].
  - apply andb_true_iff in Hg as [_ Hg].
    destruct (IH _ _ Hg eq_refl Hw) as [Hor|[a Ha]].
    + apply orb_true_iff in Hor as [?|Hgrant]; [by left|right].
      destruct e0 as [| | ? [[|]|] | | | | | | | | | | |]; try done.
      eexists. apply elem_of_cons. by left.
    + right. exists a. apply elem_of_cons. by right.
Qed.

Lemma guarded_sound (tr pre : list Event) e post :
  guarded false tr = true -> tr = (pre ++ e :: post)%list -> is_write e = true ->
  exists a, EAuthorizedRegistrars a (Ok true) ∈ pre.
Proof. intros Hg Htr Hw. by destruct (guarded_split _ _ _ _ _ Hg Htr Hw). Qed.

(** Upload steps are neither writes nor grants: a prefix made of them
    changes nothing for the two checks. *)
Lemma upload_steps_no_write (evs : list Event) :
  forallb is_upload_step evs = true -> existsb is_write evs = false.
Proof.
  induction evs as [|e evs IH]; [done|]. simpl. intros [He Hevs]%andb_true_iff.
  rewrite IH by done. by destruct e.
Qed.

Lemma upload_steps_guarded granted (evs tr : list Event) :
  forallb is_upload_step evs = true -> guarded granted (evs ++ tr) = guarded granted tr.
Proof.
  revert granted. induction evs as [|e evs IH]; [done|]. simpl.
  intros granted [He Hevs]%andb_true_iff. rewrite IH by done. by destruct e, granted.
Qed.

Lemma upload_steps_guarded_all granted (evs : list Event) :
  forallb is_upload_step evs = true -> guarded granted evs = true.
Proof.
  intros Hall. by rewrite <- (app_nil_r evs), upload_steps_guarded.
Qed.

Lemma upload_steps_elem (evs : list Event) e :
  forallb is_upload_step evs = true -> e ∈ evs -> is_upload_step e = true.
Proof.
  intros Hall Hin. apply list_elem_of_In in Hin.
  by apply (proj1 (forallb_forall _ _) Hall).
Qed.

(** Read a membership fact about an explicit trace as a disjunction; an
    event that is not an upload step is not among upload steps. *)
Ltac in_trace H :=
  rewrite ?elem_of_app, ?elem_of_cons, ?elem_of_nil in H;
  repeat match type of H with
  | _ \/ _ => destruct H as [H|H]
  end;
  try done; simplify_eq;
  try match goal with
  | Hup : forallb is_upload_step ?evs = true, Hin : _ ∈ ?evs |- _ =>
      by apply (upload_steps_elem _ _ Hup) in Hin
  end;
  try done.

(** Two results of the same call are the same result. *)
Ltac same_calls :=
  repeat match goal with
  | H1 : ?x = ?a, H2 : ?x = ?b |- _ => rewrite H1 in H2; simplify_eq
  end.

(** Flatten the appends of a trace. *)
Ltac norm_trace := repeat rewrite <- List.app_assoc; simpl.

(** A trace made of upload steps and of explicit events that are not writes
    has no write. *)
Ltac no_write :=
  norm_trace;
  first [ reflexivity
        | by apply upload_steps_no_write
        | by rewrite existsb_app, upload_steps_no_write ].

(** ** Evidence upload *)

Section UploadFacts.
Context `{Platform} {L S F : Type} `{Contract L} `{EvidenceStore S} `{TempFs F}.
Implicit Types (w : World L S F) (st : St L S F) (file : UploadedFile).

(** C9. A blob whose media type is outside the four allowed ones is rejected
    with the invalid-type error before anything else happens: the run makes
    no outside call at all (no staging write, no store-client
    initialization, no submission) and leaves the world as it was. *)
Theorem uploadFileToIPFS_rejects_type_first w file :
  includes allowedTypes (mimetype file) = false ->
  run (uploadFileToIPFS file) w =
    (Thrown "Invalid file type. Only PDF, JPEG, PNG, or JSON allowed.", w, []).
Proof.
  intros Hbad. unfold run, uploadFileToIPFS. rewrite Hbad. simpl.
  by destruct w.
Qed.

(** X19. When the upload resolves, the five outside calls were made in order and
    each of them resolved; the last one removes the staged file. *)
Lemma uploadFileToIPFS_resolved w file cid w' tr :
  run (uploadFileToIPFS file) w = (Ok cid, w', tr) ->
  exists f fs,
    let p := tempFilePath_of (now w) file in
    tr = [EMv p (Ok ()); EStoreConnect (Ok ()); EFilesFromPaths [p] (Ok (f :: fs));
          EUploadFile f (Ok cid); EUnlink p (Ok ())]
    /\ includes allowedTypes (mimetype file) = true.
Proof.
  unfold run, uploadFileToIPFS. unfold_handlers. branches.
  all: intros ?; simplify_eq.
  repeat match goal with u : unit |- _ => destruct u end.
  eexists _, _. split; [reflexivity|]. by apply negb_false_iff.
Qed.

(** The staged file is removed on the success path only: when the upload
    rejects, [fs.unlink] was either not called or is itself what rejected. *)
Lemma uploadFileToIPFS_rejected_keeps_staged w file m w' tr :
  run (uploadFileToIPFS file) w = (Thrown m, w', tr) ->
  forall p u, EUnlink p u ∈ tr -> u = Thrown m.
Proof.
  unfold run, uploadFileToIPFS. unfold_handlers. branches.
  all: intros ? p u Hin; simplify_eq; in_trace Hin.
Qed.

(** Frame: an upload, from any state, leaves the ledger and the
    configuration alone and appends upload steps only to the trace. *)
Lemma uploadFileToIPFS_frame file st r st' :
  uploadFileToIPFS file st = (r, st') ->
  ledger (world st') = ledger (world st)
  /\ env (world st') = env (world st)
  /\ exists evs, log st' = (log st ++ evs)%list /\ forallb is_upload_step evs = true.
Proof.
  unfold uploadFileToIPFS. unfold_handlers. branches. all: intros ?; simplify_eq; simpl.
  all: split; [done|split; [done|]]; repeat rewrite <- List.app_assoc; simpl.
  all: try by (eexists; split; [reflexivity|reflexivity]).
  all: by (exists []; rewrite app_nil_r).
Qed.

(** [POST /upload] answers 500, with the helper's message, to a file of a
    type that is not allowed, before any outside call. *)
Lemma upload_invalid_type_500 w file :
  includes allowedTypes (mimetype file) = false ->
  answer (upload {| u_file := Some file |}) w =
    status_json 500 (error_body "Invalid file type. Only PDF, JPEG, PNG, or JSON allowed.")
  /\ trace (upload {| u_file := Some file |}) w = [].
Proof.
  intros Hbad.
  unfold answer, trace, serve, upload, try_catch. cbn [u_file].
  unfold mbind, M_bind, uploadFileToIPFS, throw. by rewrite Hbad.
Qed.

(** X20. An upload never calls the ledger: whatever its outcome, it leaves
    the ledger, the configuration and the clock as they were, and every
    outside call it makes is an upload step. *)
Theorem uploadFileToIPFS_off_ledger w file r w' tr :
  run (uploadFileToIPFS file) w = (r, w', tr) ->
  ledger w' = ledger w /\ env w' = env w /\ now w' = now w
  /\ forallb is_upload_step tr = true.
Proof.
  unfold run, uploadFileToIPFS. unfold_handlers. branches.
  all: by intros ?; simplify_eq.
Qed.

(** X21. The steps of an upload come in order, on one staging path: the
    store client is initialized only after the blob was staged; a file is
    submitted only after the client was initialized and it is the first
    file read back from the staging path; [fs.unlink] is called only on the
    staging path and only after the submission resolved. *)
Theorem uploadFileToIPFS_order w file r w' tr :
  run (uploadFileToIPFS file) w = (r, w', tr) ->
  (forall q u, EMv q u ∈ tr -> q = tempFilePath_of (now w) file)
  /\ (forall u, EStoreConnect u ∈ tr -> EMv (tempFilePath_of (now w) file) (Ok ()) ∈ tr)
  /\ (forall f u, EUploadFile f u ∈ tr ->
        EStoreConnect (Ok ()) ∈ tr
        /\ exists fs, EFilesFromPaths [tempFilePath_of (now w) file] (Ok (f :: fs)) ∈ tr)
  /\ (forall q u, EUnlink q u ∈ tr ->
        q = tempFilePath_of (now w) file /\ exists f cid, EUploadFile f (Ok cid) ∈ tr).
Proof.
  unfold run, uploadFileToIPFS. unfold_handlers. branches.
  all: intros ?; simplify_eq.
  all: repeat match goal with u : unit |- _ => destruct u end.
  all: split; [intros q u Hin; in_trace Hin|].
  all: split; [intros u Hin; in_trace Hin; rewrite !elem_of_cons; auto|].
  all: split; [intros f' u Hin; in_trace Hin|intros q u Hin; in_trace Hin].
  all: try (split; [rewrite !elem_of_cons; auto|eexists; rewrite !elem_of_cons; eauto 10]).
  all: split; [done|eexists _, _; rewrite !elem_of_cons; eauto 10].
Qed.

(** A rejected step of an upload is what the upload rejects with. *)
Lemma uploadFileToIPFS_rejections file w r st' :
  uploadFileToIPFS file {| world := w; log := [] |} = (r, st') ->
  forall e m, e ∈ log st' -> rejection e = Some m -> r = Thrown m.
Proof.
  unfold uploadFileToIPFS. unfold_handlers. branches.
  all: intros ? e m Hin Hrej; simplify_eq; simpl in Hin; in_trace Hin.
  all: simpl in Hrej; by simplify_eq.
Qed.

(** X22. [POST /upload] answers 200 only after the whole upload went
    through: the request carried a file of an allowed type, the five steps
    were made in order and resolved, the staged copy was removed last, and
    the body holds the CID the store returned. *)
Theorem upload_200_complete w req :
  status (answer (upload req) w) = 200%Z ->
  exists file f fs cid,
    u_file req = Some file
    /\ includes allowedTypes (mimetype file) = true
    /\ trace (upload req) w =
         [EMv (tempFilePath_of (now w) file) (Ok ()); EStoreConnect (Ok ());
          EFilesFromPaths [tempFilePath_of (now w) file] (Ok (f :: fs));
          EUploadFile f (Ok cid); EUnlink (tempFilePath_of (now w) file) (Ok ())]
    /\ body (answer (upload req) w) = JObj [("cid", JStr cid)].
Proof.
  observe. unfold upload, uploadFileToIPFS. unfold_handlers. branches.
  all: intros ? Hok; simplify_eq.
  repeat match goal with u : unit |- _ => destruct u end.
  eexists _, _, _, _. split; [done|]. split; [by apply negb_false_iff|]. done.
Qed.

End UploadFacts.

(** ** The two mutating operations *)

Section LedgerFacts.
Context `{Platform} {L S F : Type} `{Contract L} `{EvidenceStore S} `{TempFs F}.
Implicit Types (w : World L S F) (st : St L S F).

(** Step over the upload a record-death run makes, by its frame lemma:
    afterwards the ledger and the configuration are the initial ones and the
    trace so far consists of upload steps. *)
Ltac frame_upload :=
  match goal with
  | |- context [uploadFileToIPFS ?f ?st] =>
      let Hup := fresh "Hup" in
      let Hledger := fresh "Hledger" in
      let Henv := fresh "Henv" in
      let Hlog := fresh "Hlog" in
      let Hsteps := fresh "Hsteps" in
      let w1 := fresh "w" in
      let log1 := fresh "evs" in
      destruct (uploadFileToIPFS f st) as [? [w1 log1]] eqn:Hup;
      destruct (uploadFileToIPFS_frame _ _ _ _ Hup) as (Hledger & Henv & ? & Hlog & Hsteps);
      simpl in Hledger, Henv, Hlog; subst log1
  end.

Ltac use_frame :=
  repeat match goal with
  | H : ledger ?w1 = ledger _ |- context [ledger ?w1] => rewrite H
  | H : env ?w1 = env _ |- context [env ?w1] => rewrite H
  end.

Ltac run_branches :=
  repeat (first [frame_upload | branch]; simplify_eq; simpl; use_frame).

(** C1. In a bind and in a record-death operation alike, every
    authorization read is about the wallet the process signs with; a ledger
    write ([bindIdentity] or [recordDeath]) is issued only after an
    authorization read of that same operation returned true; and when the
    authorization read returned false the operation answers 403 "Not
    authorized registrar" and issues no write. *)
Theorem write_requires_authorization w op :
  (forall a r, EAuthorizedRegistrars a r ∈ trace (handle op) w -> callerWallet w = Ok a)
  /\ (forall (pre : list Event) e post,
        trace (handle op) w = (pre ++ e :: post)%list -> is_write e = true ->
        exists a, EAuthorizedRegistrars a (Ok true) ∈ pre)
  /\ (forall a, EAuthorizedRegistrars a (Ok false) ∈ trace (handle op) w ->
        answer (handle op) w = status_json 403 (error_body "Not authorized registrar")
        /\ existsb is_write (trace (handle op) w) = false).
Proof.
  split; [|split].
  - intros a r. unfold callerWallet, run. observe.
    destruct op as [req|req]; cbn [handle]; unfold_handlers; run_branches.
    all: intros ? Hin; simplify_eq; in_trace Hin.
  - intros pre e post Htr Hw. eapply guarded_sound; [|exact Htr|exact Hw].
    clear Htr. observe.
    destruct op as [req|req]; cbn [handle]; unfold_handlers; run_branches.
    all: intros ?; simplify_eq; eqb_facts; subst; norm_trace.
    all: first [ reflexivity
               | by apply upload_steps_guarded_all
               | by rewrite upload_steps_guarded ].
  - intros a. observe.
    destruct op as [req|req]; cbn [handle]; unfold_handlers; run_branches.
    all: intros ? Hin; simplify_eq; in_trace Hin.
    all: split; [done|no_write].
Qed.

(** C2, as the code has it. When the [nricToWallet] read of a bind
    operation returns a non-zero wallet, no [bindIdentity] write is issued
    and the ledger is left as it was. The handler awaits the [walletToNric]
    read before it tests the first result: when that second read resolves,
    the answer is 400 "NRIC already bound" carrying the existing wallet; when
    it rejects, the answer is 500 with the rejection's message. *)
Theorem bind_identity_already_bound w req existing :
  ENricToWallet (b_nric req) (Ok existing) ∈ trace (bind_identity req) w ->
  existing <> ZeroAddress ->
  existsb is_write (trace (bind_identity req) w) = false
  /\ ledger (after (bind_identity req) w) = ledger w
  /\ answer (bind_identity req) w =
       match walletToNric (ledger w) (b_wallet req) with
       | Ok _ => status_json 400 (JObj [("error", JStr "NRIC already bound");
                                        ("existingWallet", JStr existing)])
       | Thrown m => status_json 500 (error_body m)
       end.
Proof.
  intros Hin Hne. revert Hin. observe.
  unfold_handlers; run_branches.
  all: intros ? Hin; simplify_eq; in_trace Hin; eqb_facts; done.
Qed.

(** C3. When the [nricToWallet] read of a record-death operation returns
    the zero address, the operation answers 404 "NRIC not registered",
    issues no ledger write and leaves the ledger as it was. *)
Theorem record_death_unregistered w req :
  ENricToWallet (d_nric req) (Ok ZeroAddress) ∈ trace (record_death req) w ->
  answer (record_death req) w = status_json 404 (error_body "NRIC not registered")
  /\ existsb is_write (trace (record_death req) w) = false
  /\ ledger (after (record_death req) w) = ledger w.
Proof.
  observe.
  unfold_handlers; run_branches.
  all: intros ? Hin; simplify_eq; in_trace Hin; eqb_facts; try done.
  all: split; [done|split; [no_write|done]].
Qed.

(** C4, as the code has it. When the authorization read of a record-death
    operation returns false, the operation answers 403 "Not authorized
    registrar", issues no ledger write and leaves the ledger as it was. The
    evidence is resolved before the authorization read: with a truthy
    [metadataCID] the authorization read is the only outside call; without
    one, the request carried a file and its upload has already run to
    completion (staged, submitted, unstaged) when authorization is read. *)
Theorem record_death_unauthorized w req a :
  EAuthorizedRegistrars a (Ok false) ∈ trace (record_death req) w ->
  answer (record_death req) w = status_json 403 (error_body "Not authorized registrar")
  /\ existsb is_write (trace (record_death req) w) = false
  /\ ledger (after (record_death req) w) = ledger w
  /\ if truthy (d_metadataCID req)
     then trace (record_death req) w = [EAuthorizedRegistrars a (Ok false)]
     else exists file cid evs,
            d_file req = Some file
            /\ run (uploadFileToIPFS file) w = (Ok cid, after (record_death req) w, evs)
            /\ trace (record_death req) w = (evs ++ [EAuthorizedRegistrars a (Ok false)])%list.
Proof.
  unfold run. observe.
  unfold_handlers; run_branches.
  all: intros ? Hin; simplify_eq; in_trace Hin; eqb_facts.
  all: split; [done|split; [no_write|split; [done|]]].
  all: repeat match goal with Ht : truthy _ = _ |- _ => rewrite Ht end; try done.
  eexists _, _, _. split; [done|]. by rewrite Hup.
Qed.

(** C10. A truthy [metadataCID] in the body of a record-death request is
    used as it is: the run is the one of the same request without its file
    (so the file, if any, is neither validated nor uploaded), it makes no
    upload step, every [recordDeath] write it issues carries exactly the
    supplied value, and that write is issued when the caller is authorized
    and the NRIC is bound. An empty-string [metadataCID] behaves as an absent
    one: the run is the same, and without a file it answers 400. *)
Theorem record_death_metadataCID w nric file :
  (forall cid, truthy cid = true ->
     let req := {| d_nric := nric; d_metadataCID := cid; d_file := file |} in
     serve (record_death req) w =
       serve (record_death {| d_nric := nric; d_metadataCID := cid; d_file := None |}) w
     /\ existsb is_upload_step (trace (record_death req) w) = false
     /\ (forall n c r, ERecordDeath n c r ∈ trace (record_death req) w -> n = nric /\ c = cid)
     /\ (forall a b, truthy nric = true -> callerWallet w = Ok a ->
           authorizedRegistrars (ledger w) a = Ok true ->
           nricToWallet (ledger w) nric = Ok b -> b <> ZeroAddress ->
           exists r, ERecordDeath nric cid r ∈ trace (record_death req) w))
  /\ serve (record_death {| d_nric := nric; d_metadataCID := JStr ""; d_file := file |}) w =
       serve (record_death {| d_nric := nric; d_metadataCID := JUndefined; d_file := file |}) w
  /\ (truthy nric = true ->
       answer (record_death {| d_nric := nric; d_metadataCID := JStr ""; d_file := None |}) w =
         status_json 400 (error_body "Either metadataCID or file is required")).
Proof.
  split; [|split].
  - intros cid Hcid req. subst req. split; [|split; [|split]].
    + unfold serve, record_death, try_catch, mbind, M_bind, mret, M_ret. simpl.
      by rewrite Hcid.
    + observe. unfold_handlers. rewrite Hcid. simpl. run_branches.
      all: by intros ?; simplify_eq.
    + intros n c r. observe. unfold_handlers. rewrite Hcid. simpl. run_branches.
      all: intros ? Hin; simplify_eq; in_trace Hin.
    + intros a b Hnric Hcaller Hauth Hbound Hne. revert Hcaller.
      unfold callerWallet, run. observe. unfold_handlers.
      rewrite Hcid, Hnric. simpl. run_branches.
      all: intros ? ?; simplify_eq; same_calls; eqb_facts; try done.
      all: eexists; rewrite !elem_of_cons; eauto.
  - done.
  - intros Hnric. unfold answer, serve, record_death, try_catch, mbind, M_bind, mret, M_ret.
    simpl. by rewrite Hnric.
Qed.

(** Split the disjunctions of tests that were found false. *)
Ltac orb_facts :=
  repeat match goal with
  | H : _ || _ = false |- _ => apply orb_false_iff in H as [? ?]
  end.


(** X2. When the NRIC is unbound but the wallet read of a bind operation
    returns a non-empty NRIC, the answer is 400 "Wallet already bound"
    carrying that NRIC; the two reads are the only outside calls (no
    authorization read, no write) and the world is left as it was. *)
Theorem bind_identity_wallet_already_bound w req n :
  ENricToWallet (b_nric req) (Ok ZeroAddress) ∈ trace (bind_identity req) w ->
  EWalletToNric (b_wallet req) (Ok n) ∈ trace (bind_identity req) w ->
  n <> "" ->
  answer (bind_identity req) w =
    status_json 400 (JObj [("error", JStr "Wallet already bound"); ("existingNric", JStr n)])
  /\ trace (bind_identity req) w =
       [ENricToWallet (b_nric req) (Ok ZeroAddress); EWalletToNric (b_wallet req) (Ok n)]
  /\ after (bind_identity req) w = w.
Proof.
  intros Hfree Hown Hne. revert Hfree Hown. observe. unfold_handlers. run_branches.
  all: intros ? Hfree Hown; simplify_eq; in_trace Hfree; in_trace Hown; eqb_facts; try done.
  all: by destruct w.
Qed.

(** X3. A [bindIdentity] write carries the NRIC and the wallet of the
    request, and is issued only after the request passed the local
    validation, the NRIC read returned the zero address, the wallet read
    returned the empty string and the authorization read on the signer
    wallet returned true, in this order. *)
Theorem bind_identity_write_checked w req n a r :
  EBindIdentity n a r ∈ trace (bind_identity req) w ->
  n = b_nric req /\ a = b_wallet req
  /\ truthy (b_nric req) = true /\ isAddress (b_wallet req) = true
  /\ strict_eq_str (b_wallet req) ZeroAddress = false
  /\ exists signer post,
       callerWallet w = Ok signer
       /\ trace (bind_identity req) w =
            ([ENricToWallet (b_nric req) (Ok ZeroAddress);
              EWalletToNric (b_wallet req) (Ok "");
              EAuthorizedRegistrars signer (Ok true);
              EBindIdentity n a r] ++ post)%list.
Proof.
  unfold callerWallet, run. observe. unfold_handlers. run_branches.
  all: intros ? Hin; simplify_eq; in_trace Hin; orb_facts; eqb_facts; subst.
  all: do 5 (split; [done|]).
  all: eexists _, _; split; reflexivity.
Qed.

(** X4. When the configuration is usable, the request is valid, both
    uniqueness reads return the unbound sentinels and the signer is
    authorized, the bind operation issues the write with the signer, waits
    for the transaction on the ledger the write left, answers 200 with the
    transaction's hash and block number, and leaves the ledger as [tx.wait]
    left it. *)
Theorem bind_identity_succeeds w req signer tx l1 rc l2 :
  truthy (b_nric req) = true -> truthy (b_wallet req) = true ->
  isAddress (b_wallet req) = true -> strict_eq_str (b_wallet req) ZeroAddress = false ->
  callerWallet w = Ok signer ->
  nricToWallet (ledger w) (b_nric req) = Ok ZeroAddress ->
  walletToNric (ledger w) (b_wallet req) = Ok "" ->
  authorizedRegistrars (ledger w) signer = Ok true ->
  bindIdentity (ledger w) signer (b_nric req) (b_wallet req) = (Ok tx, l1) ->
  wait l1 tx = (Ok rc, l2) ->
  answer (bind_identity req) w =
    json (JObj [("message", JStr "Identity bound successfully");
                ("transactionHash", JStr (hash tx));
                ("blockNumber", JNum (blockNumber rc))])
  /\ ledger (after (bind_identity req) w) = l2
  /\ trace (bind_identity req) w =
       [ENricToWallet (b_nric req) (Ok ZeroAddress);
        EWalletToNric (b_wallet req) (Ok "");
        EAuthorizedRegistrars signer (Ok true);
        EBindIdentity (b_nric req) (b_wallet req) (Ok tx);
        EWait tx (Ok rc)].
Proof.
  intros Hn Hw Haddr Hzero Hcaller Hfree Hown Hauth Hsend Hwait. revert Hcaller.
  unfold callerWallet, run. observe. unfold_handlers.
  rewrite Hn, Hw, Haddr, Hzero. simpl. run_branches.
  all: intros ? ?; simplify_eq; same_calls; eqb_facts; try done.
Qed.

(** X5. A mutating operation answers 200 only after its write was issued
    and [tx.wait()] resolved: the last outside call of the run is the
    resolved wait on the transaction a write of the run resolved to, and the
    body carries that transaction's hash and the receipt's block number. *)
Theorem mutation_200_confirmed w op :
  status (answer (handle op) w) = 200%Z ->
  exists e tx rc,
    e ∈ trace (handle op) w /\ written_tx e = Some tx
    /\ last (trace (handle op) w) = Some (EWait tx (Ok rc))
    /\ field "transactionHash" (body (answer (handle op) w)) = JStr (hash tx)
    /\ field "blockNumber" (body (answer (handle op) w)) = JNum (blockNumber rc).
Proof.
  observe. destruct op as [req|req]; cbn [handle]; unfold_handlers; run_branches.
  all: intros ? Hok; simplify_eq.
  all: match goal with
       | |- context [EBindIdentity ?n ?a (Ok ?tx)] => exists (EBindIdentity n a (Ok tx))
       | |- context [ERecordDeath ?n ?c (Ok ?tx)] => exists (ERecordDeath n c (Ok tx))
       end.
  all: eexists _, _; split; [rewrite ?elem_of_app, !elem_of_cons; auto 10|].
  all: split; [reflexivity|]; split; [|done].
  all: first [reflexivity | apply last_snoc].
Qed.

(** X6. When [tx.wait()] rejects, the operation answers 500 with the
    rejection's message although the write was issued: the trace holds the
    resolved write the transaction came from. *)
Theorem mutation_wait_rejected w op tx m :
  EWait tx (Thrown m) ∈ trace (handle op) w ->
  answer (handle op) w = status_json 500 (error_body m)
  /\ exists e, e ∈ trace (handle op) w /\ written_tx e = Some tx.
Proof.
  observe. destruct op as [req|req]; cbn [handle]; unfold_handlers; run_branches.
  all: intros ? Hin; simplify_eq; in_trace Hin.
  all: split; [done|].
  all: match goal with
       | |- context [EBindIdentity ?n ?a (Ok ?tx)] => exists (EBindIdentity n a (Ok tx))
       | |- context [ERecordDeath ?n ?c (Ok ?tx)] => exists (ERecordDeath n c (Ok tx))
       end.
  all: split; [rewrite ?elem_of_app, !elem_of_cons; auto 10|reflexivity].
Qed.


(** X8. When the upload a record-death operation needs rejects, the
    operation answers 500 with the upload's message and stops there: its
    outside calls are those of the upload, and no ledger call is made. *)
Theorem record_death_upload_rejected w req file m w1 evs :
  truthy (d_nric req) = true -> truthy (d_metadataCID req) = false ->
  d_file req = Some file ->
  run (uploadFileToIPFS file) w = (Thrown m, w1, evs) ->
  serve (record_death req) w = (status_json 500 (error_body m), w1, evs).
Proof.
  intros Hn Hc Hf. unfold run, serve, record_death, try_catch, mbind, M_bind, mret, M_ret.
  rewrite Hn, Hc, Hf. simpl.
  destruct (uploadFileToIPFS file _) as [r st1]. intros ?; by simplify_eq.
Qed.

(** X9. Recording a death with a file is uploading the file and then
    recording the death with the CID the upload returned: same answer, same
    final world, and the outside calls of the upload followed by those of
    the second operation. The CID returned must be non-empty: the handler
    does not test it again, while an empty [metadataCID] in a request counts
    as absent. *)
Theorem record_death_with_file w req file cid w1 evs :
  truthy (d_nric req) = true -> truthy (d_metadataCID req) = false ->
  d_file req = Some file ->
  run (uploadFileToIPFS file) w = (Ok cid, w1, evs) -> cid <> "" ->
  serve (record_death req) w =
    (answer (record_death {| d_nric := d_nric req; d_metadataCID := JStr cid;
                             d_file := None |}) w1,
     after (record_death {| d_nric := d_nric req; d_metadataCID := JStr cid;
                            d_file := None |}) w1,
     (evs ++ trace (record_death {| d_nric := d_nric req; d_metadataCID := JStr cid;
                                    d_file := None |}) w1)%list).
Proof.
  intros Hn Hc Hf Hup Hcid. revert Hup.
  unfold answer, after, trace, run, serve. unfold_handlers.
  rewrite Hn, Hc, Hf. simpl.
  apply String.eqb_neq in Hcid. rewrite Hcid. simpl.
  destruct (uploadFileToIPFS file _) as [r [w' evs']]. intros ?; simplify_eq. simpl.
  branches. all: by rewrite ?app_nil_r, <- ?List.app_assoc.
Qed.

(** X10. A [recordDeath] write carries the NRIC of the request, and is
    issued only after the authorization read on the signer wallet returned
    true and the NRIC read returned a non-zero wallet, in this order; before
    them the run made upload steps only. *)
Theorem record_death_write_checked w req n c r :
  ERecordDeath n c r ∈ trace (record_death req) w ->
  n = d_nric req /\ truthy (d_nric req) = true
  /\ exists signer b pre post,
       callerWallet w = Ok signer /\ b <> ZeroAddress
       /\ forallb is_upload_step pre = true
       /\ trace (record_death req) w =
            (pre ++ [EAuthorizedRegistrars signer (Ok true);
                     ENricToWallet (d_nric req) (Ok b);
                     ERecordDeath n c r] ++ post)%list.
Proof.
  unfold callerWallet, run. observe. unfold_handlers. run_branches.
  all: intros ? Hin; simplify_eq; in_trace Hin; orb_facts; eqb_facts; subst.
  all: do 2 (split; [done|]).
  all: norm_trace.
  all: first [ eexists _, _, [], _; split; [reflexivity|]; split; [done|];
               split; reflexivity
             | eexists _, _, _, _; split; [reflexivity|]; split; [done|];
               split; [eassumption|reflexivity] ].
Qed.

(** X11. When the configuration is usable, the NRIC and the [metadataCID]
    are supplied, the signer is authorized and the NRIC is bound, the
    record-death operation issues the write with the supplied CID, waits for
    the transaction, answers 200 with the CID, the transaction's hash and
    block number, and leaves the ledger as [tx.wait] left it. *)
Theorem record_death_succeeds w req signer b tx l1 rc l2 :
  truthy (d_nric req) = true -> truthy (d_metadataCID req) = true ->
  callerWallet w = Ok signer ->
  authorizedRegistrars (ledger w) signer = Ok true ->
  nricToWallet (ledger w) (d_nric req) = Ok b -> b <> ZeroAddress ->
  recordDeath (ledger w) signer (d_nric req) (d_metadataCID req) = (Ok tx, l1) ->
  wait l1 tx = (Ok rc, l2) ->
  answer (record_death req) w =
    json (JObj [("message", JStr "Death recorded and SBT minted");
                ("metadataCID", d_metadataCID req);
                ("transactionHash", JStr (hash tx));
                ("blockNumber", JNum (blockNumber rc))])
  /\ ledger (after (record_death req) w) = l2
  /\ trace (record_death req) w =
       [EAuthorizedRegistrars signer (Ok true);
        ENricToWallet (d_nric req) (Ok b);
        ERecordDeath (d_nric req) (d_metadataCID req) (Ok tx);
        EWait tx (Ok rc)].
Proof.
  intros Hn Hc Hcaller Hauth Hbound Hne Hsend Hwait. revert Hcaller.
  unfold callerWallet, run. observe. unfold_handlers.
  rewrite Hn, Hc. simpl. run_branches.
  all: intros ? ?; simplify_eq; same_calls; eqb_facts; try done.
Qed.

(** *** All four routes *)

(** X12. Each route answers with one of the status codes written in its
    handler: 200, 400 or 500 for an upload; 200, 400, 403 or 500 for a bind;
    200, 400, 403, 404 or 500 for a record-death; 200, 404 or 500 for a
    search. *)
Theorem app_statuses w r :
  status (answer (app r) w) ∈ statuses r.
Proof.
  observe. destruct r as [req|req|req|nric]; cbn [app statuses]; unfold_handlers.
  all: run_branches.
  all: intros ?; simplify_eq; simpl; rewrite !elem_of_cons; auto 10.
Qed.

(** X13. Every answer other than a 200 has an [error] field holding a
    string, and no 200 answer has an [error] field. *)
Theorem app_error_field w r :
  if (status (answer (app r) w) =? 200)%Z
  then field "error" (body (answer (app r) w)) = JUndefined
  else exists m, field "error" (body (answer (app r) w)) = JStr m.
Proof.
  observe. destruct r as [req|req|req|nric]; cbn [app]; unfold_handlers.
  all: run_branches.
  all: intros ?; simplify_eq; simpl; eauto.
Qed.

(** X14. No rejection is swallowed: when an outside call of a run rejects,
    the answer is the 500 of the route's [catch] block carrying the
    rejection's message. *)
Theorem app_rejection_is_500 w r e m :
  e ∈ trace (app r) w -> rejection e = Some m ->
  answer (app r) w = caught r m.
Proof.
  observe. destruct r as [req|req|req|nric]; cbn [app caught]; unfold_handlers.
  all: run_branches.
  all: intros ? Hin Hrej; simplify_eq.
  all: rewrite ?elem_of_app, ?elem_of_cons, ?elem_of_nil in Hin.
  all: repeat match type of Hin with _ \/ _ => destruct Hin as [Hin|Hin] end.
  all: try done; simplify_eq; simpl in Hrej; simplify_eq; try done.
  all: try match goal with
       | Hup : uploadFileToIPFS _ _ = _ |- _ =>
           pose proof (uploadFileToIPFS_rejections _ _ _ _ Hup _ _ Hin Hrej)
       end; simplify_eq; try done.
Qed.

End LedgerFacts.

(** ** Search by NRIC *)

Section SearchFacts.
Context `{Platform} {L S F : Type} `{Contract L} `{EvidenceStore S} `{TempFs F}.
Implicit Types (w : World L S F).

(** The run of a search on a registered identity the ledger reports as
    deceased: four reads, and the response built from them. *)
Lemma search_by_nric_deceased w nric a wallet t r :
  callerWallet w = Ok a ->
  nricToWallet (ledger w) (JStr nric) = Ok wallet -> wallet <> ZeroAddress ->
  isDeceased (ledger w) (JStr nric) = Ok true ->
  getTokenByNric (ledger w) (JStr nric) = Ok t ->
  records (ledger w) t = Ok r ->
  serve (search_by_nric nric) w =
    (json (JObj [("nric", JStr nric);
                 ("wallet", JStr wallet);
                 ("isDeceased", JBool true);
                 ("tokenId", if truthy_bigint t then JStr (pretty t) else JNull);
                 ("record", record_json r);
                 ("tokenURI", JStr ("ipfs://" +:+ metadataCID r))]),
     w,
     [ENricToWallet (JStr nric) (Ok wallet); EIsDeceased (JStr nric) (Ok true);
      EGetTokenByNric (JStr nric) (Ok t); ERecords t (Ok r)]).
Proof.
  intros Hcaller Hwallet Hne Hdead Htoken Hrecord. revert Hcaller.
  unfold callerWallet, run, serve. unfold_handlers. branches.
  all: intros ?; simplify_eq; same_calls; eqb_facts; try done.
  all: by destruct w.
Qed.

(** X17. The run of a search on a registered identity the ledger reports as not
    deceased: two reads, and the three optional fields are null. *)
Lemma search_by_nric_alive w nric a wallet :
  callerWallet w = Ok a ->
  nricToWallet (ledger w) (JStr nric) = Ok wallet -> wallet <> ZeroAddress ->
  isDeceased (ledger w) (JStr nric) = Ok false ->
  serve (search_by_nric nric) w =
    (json (JObj [("nric", JStr nric);
                 ("wallet", JStr wallet);
                 ("isDeceased", JBool false);
                 ("tokenId", JNull);
                 ("record", JNull);
                 ("tokenURI", JNull)]),
     w,
     [ENricToWallet (JStr nric) (Ok wallet); EIsDeceased (JStr nric) (Ok false)]).
Proof.
  intros Hcaller Hwallet Hne Hdead. revert Hcaller.
  unfold callerWallet, run, serve. unfold_handlers. branches.
  all: intros ?; simplify_eq; same_calls; eqb_facts; try done.
  all: by destruct w.
Qed.

(** C7. A search on a registered identity that the ledger reports as
    deceased answers 200 with a [tokenURI] that is exactly "ipfs://" followed
    by the [metadataCID] of the record it fetched, with [records], for the
    token [getTokenByNric] returned for that identity. *)
Theorem search_by_nric_tokenURI w nric a wallet t r :
  callerWallet w = Ok a ->
  nricToWallet (ledger w) (JStr nric) = Ok wallet -> wallet <> ZeroAddress ->
  isDeceased (ledger w) (JStr nric) = Ok true ->
  getTokenByNric (ledger w) (JStr nric) = Ok t ->
  records (ledger w) t = Ok r ->
  status (answer (search_by_nric nric) w) = 200%Z
  /\ field "tokenURI" (body (answer (search_by_nric nric) w))
     = JStr ("ipfs://" +:+ metadataCID r)
  /\ trace (search_by_nric nric) w =
       [ENricToWallet (JStr nric) (Ok wallet); EIsDeceased (JStr nric) (Ok true);
        EGetTokenByNric (JStr nric) (Ok t); ERecords t (Ok r)].
Proof.
  intros Hcaller Hwallet Hne Hdead Htoken Hrecord. unfold answer, trace.
  by rewrite (search_by_nric_deceased w nric a wallet t r).
Qed.

(** The [tokenId] of a 200 answer is null exactly when the identity is not
    deceased or its token identifier is 0. *)
Lemma search_by_nric_tokenId w nric a wallet t r :
  callerWallet w = Ok a ->
  nricToWallet (ledger w) (JStr nric) = Ok wallet -> wallet <> ZeroAddress ->
  isDeceased (ledger w) (JStr nric) = Ok true ->
  getTokenByNric (ledger w) (JStr nric) = Ok t ->
  records (ledger w) t = Ok r ->
  field "tokenId" (body (answer (search_by_nric nric) w))
  = if (t =? 0)%N then JNull else JStr (pretty t).
Proof.
  intros Hcaller Hwallet Hne Hdead Htoken Hrecord. unfold answer.
  rewrite (search_by_nric_deceased w nric a wallet t r) by done.
  simpl. unfold truthy_bigint. by destruct (t =? 0)%N.
Qed.

(** X15. A search only reads: whatever the ledger answers, the run issues
    no write, makes no upload step and leaves the world as it was. *)
Theorem search_by_nric_read_only w nric :
  after (search_by_nric nric) w = w
  /\ existsb is_write (trace (search_by_nric nric) w) = false
  /\ existsb is_upload_step (trace (search_by_nric nric) w) = false.
Proof.
  observe. unfold_handlers. branches.
  all: by intros ?; simplify_eq.
Qed.

(** X16. A search for an NRIC whose wallet read returns the zero address
    answers 404 "NRIC not registered" after that single read: the deceased
    flag, the token and the record are not read. *)
Theorem search_by_nric_unregistered w nric a :
  callerWallet w = Ok a ->
  nricToWallet (ledger w) (JStr nric) = Ok ZeroAddress ->
  serve (search_by_nric nric) w =
    (status_json 404 (error_body "NRIC not registered"), w,
     [ENricToWallet (JStr nric) (Ok ZeroAddress)]).
Proof.
  intros Hcaller Hwallet. revert Hcaller.
  unfold callerWallet, run, serve. unfold_handlers. branches.
  all: intros ?; simplify_eq; same_calls; eqb_facts; try done.
  all: by destruct w.
Qed.

(** X18. A search on a registered identity that the ledger reports as
    deceased under a token identifier other than 0 answers 200 with the
    token identifier and the record's timestamp written in decimal, the
    record's [metadataCID], and leaves the world as it was. *)
Theorem search_by_nric_deceased_answer w nric a wallet t r :
  callerWallet w = Ok a ->
  nricToWallet (ledger w) (JStr nric) = Ok wallet -> wallet <> ZeroAddress ->
  isDeceased (ledger w) (JStr nric) = Ok true ->
  getTokenByNric (ledger w) (JStr nric) = Ok t -> t <> 0%N ->
  records (ledger w) t = Ok r ->
  answer (search_by_nric nric) w =
    json (JObj [("nric", JStr nric);
                ("wallet", JStr wallet);
                ("isDeceased", JBool true);
                ("tokenId", JStr (pretty t));
                ("record", JObj [("metadataCID", JStr (metadataCID r));
                                 ("timestamp", JStr (pretty (timestamp r)))]);
                ("tokenURI", JStr ("ipfs://" +:+ metadataCID r))])
  /\ after (search_by_nric nric) w = w.
Proof.
  intros Hcaller Hwallet Hne Hdead Htoken Ht Hrecord. unfold answer, after.
  rewrite (search_by_nric_deceased w nric a wallet t r) by done. simpl.
  unfold truthy_bigint. apply N.eqb_neq in Ht. by rewrite Ht.
Qed.

End SearchFacts.

(** ** Configuration *)

Lemma all_space_rev_app s1 s2 :
  all_space (String.rev_app s1 s2) = all_space s1 && all_space s2.
Proof.
  revert s2. induction s1 as [|a s1 IH]; intros s2; simpl; [done|].
  rewrite IH. simpl. by destruct (Ascii.is_space a), (all_space s1), (all_space s2).
Qed.

Lemma all_space_trim_start s : all_space (trim_start s) = all_space s.
Proof.
  induction s as [|a s IH]; simpl; [done|].
  destruct (Ascii.is_space a) eqn:Ha; simpl; [done|by rewrite Ha].
Qed.

Lemma trim_start_empty s : trim_start s = "" -> all_space s = true.
Proof. intros Hs. by rewrite <- all_space_trim_start, Hs. Qed.

Lemma all_space_trim_start_empty s : all_space s = true -> trim_start s = "".
Proof.
  induction s as [|a s IH]; simpl; [done|].
  intros [Ha Hs]%andb_true_iff. rewrite Ha. auto.
Qed.

Lemma rev_app_empty s1 s2 : String.rev_app s1 s2 = "" -> s1 = "" /\ s2 = "".
Proof.
  revert s2. induction s1 as [|a s1 IH]; intros s2; simpl; [done|].
  intros Hs. by destruct (IH _ Hs).
Qed.

(** A trimmed value is empty exactly when the value is white space only. *)
Lemma trim_empty s : String.eqb (trim s) "" = all_space s.
Proof.
  unfold trim, String.rev. destruct (all_space s) eqn:Hs.
  - by rewrite (all_space_trim_start_empty s Hs).
  - apply String.eqb_neq. intros [Hrev _]%rev_app_empty.
    apply trim_start_empty in Hrev. rewrite all_space_rev_app in Hrev.
    rewrite all_space_trim_start, Hs in Hrev. done.
Qed.

Lemma missing_trim v : missing (trim <$> v) = blank v.
Proof. destruct v as [s|]; simpl; [apply trim_empty|done]. Qed.

Section ConfigFacts.
Context `{Platform} {L S F : Type} `{Contract L} `{EvidenceStore S} `{TempFs F}.
Implicit Types (w : World L S F).



(** X25. When the signer wallet cannot be built, no ledger call is made:
    a search, a valid bind request and a record-death request with an NRIC
    and a [metadataCID] are answered 500 with the failure's message, with
    no outside call and the world left as it was. *)
Theorem no_wallet_no_ledger_call w m :
  callerWallet w = Thrown m ->
  (forall nric, serve (search_by_nric nric) w = (caught (GetSearchByNric nric) m, w, []))
  /\ (forall req, truthy (b_nric req) = true -> truthy (b_wallet req) = true ->
        isAddress (b_wallet req) = true -> strict_eq_str (b_wallet req) ZeroAddress = false ->
        serve (bind_identity req) w = (status_json 500 (error_body m), w, []))
  /\ (forall req, truthy (d_nric req) = true -> truthy (d_metadataCID req) = true ->
        serve (record_death req) w = (status_json 500 (error_body m), w, [])).
Proof.
  intros Hcaller. split; [|split].
  - intros nric. revert Hcaller.
    unfold callerWallet, run, serve. unfold_handlers. branches.
    all: by intros ?; simplify_eq.
  - intros req Hn Hw Ha Hz. revert Hcaller.
    unfold callerWallet, run, serve. unfold_handlers. rewrite Hn, Hw, Ha, Hz. simpl.
    branches. all: by intros ?; simplify_eq.
  - intros req Hn Hc. revert Hcaller.
    unfold callerWallet, run, serve. unfold_handlers. rewrite Hn, Hc. simpl.
    branches. all: by intros ?; simplify_eq.
Qed.

End ConfigFacts.

(** ** The handlers on concrete requests *)

Module Checks.
Import InMemory Scenarios.

(** The spec's scenario, first step: an authorized registrar binds a fresh
    NRIC. *)
Example bind_fresh_nric :
  serve (bind_identity bind_alice) fresh_world =
    (json (JObj [("message", JStr "Identity bound successfully");
                 ("transactionHash", JStr "0xb1");
                 ("blockNumber", JNum 101)]),
     after (bind_identity bind_alice) fresh_world,
     [ENricToWallet (JStr nric1) (Ok ZeroAddress);
      EWalletToNric (JStr alice) (Ok "");
      EAuthorizedRegistrars registrar (Ok true);
      EBindIdentity (JStr nric1) (JStr alice) (Ok {| hash := "0xb1" |});
      EWait {| hash := "0xb1" |} (Ok {| blockNumber := 101 |})]).
Proof. vm_compute. reflexivity. Qed.

(** C1 on the run above: the [bindIdentity] write comes after the
    authorization read that returned true. *)
Lemma write_requires_authorization_on_bind :
  exists a, EAuthorizedRegistrars a (Ok true) ∈
    [ENricToWallet (JStr nric1) (Ok ZeroAddress);
     EWalletToNric (JStr alice) (Ok "");
     EAuthorizedRegistrars registrar (Ok true)].
Proof.
  apply (proj1 (proj2 (write_requires_authorization fresh_world (Bind bind_alice)))
           _ (EBindIdentity (JStr nric1) (JStr alice) (Ok {| hash := "0xb1" |}))
           [EWait {| hash := "0xb1" |} (Ok {| blockNumber := 101 |})]).
  - vm_compute. reflexivity.
  - reflexivity.
Defined.

(** C2, as stated, fails: the NRIC read returns the bound wallet, yet the
    answer is 500, not the 400 conflict, because the wallet read that the
    handler awaits next is rejected. *)
Lemma bind_identity_conflict_lost_on_rejection :
  ENricToWallet (b_nric bind_bob) (Ok alice) ∈ trace (bind_identity bind_bob) flaky_world
  /\ alice <> ZeroAddress
  /\ answer (bind_identity bind_bob) flaky_world
     = status_json 500 (error_body "could not call walletToNric")
  /\ status (answer (bind_identity bind_bob) flaky_world) <> 400%Z.
Proof.
  split; [vm_compute; apply list_elem_of_here|].
  split; [done|]. split; [vm_compute; reflexivity|].
  vm_compute. discriminate.
Qed.

(** C2 amended, on a second bind of a bound NRIC. *)
Lemma bind_identity_already_bound_on_rebind :
  existsb is_write (trace (bind_identity bind_bob) registered_world) = false
  /\ ledger (after (bind_identity bind_bob) registered_world) = ledger registered_world
  /\ answer (bind_identity bind_bob) registered_world =
       status_json 400 (JObj [("error", JStr "NRIC already bound");
                              ("existingWallet", JStr alice)]).
Proof.
  refine (_ (bind_identity_already_bound registered_world bind_bob alice _ _)).
  - vm_compute. exact id.
  - vm_compute. apply list_elem_of_here.
  - discriminate.
Defined.

(** C3 on an NRIC that was never bound. *)
Lemma record_death_unregistered_on_genesis :
  answer (record_death death_with_cid) fresh_world
    = status_json 404 (error_body "NRIC not registered")
  /\ existsb is_write (trace (record_death death_with_cid) fresh_world) = false
  /\ ledger (after (record_death death_with_cid) fresh_world) = ledger fresh_world.
Proof.
  apply (record_death_unregistered fresh_world death_with_cid).
  vm_compute. apply list_elem_of_further, list_elem_of_here.
Defined.

(** C4, as stated, fails: with a file and no [metadataCID], the file is
    staged, submitted to the evidence store and unstaged before the
    authorization read that returns false. *)
Lemma record_death_uploads_before_authorization :
  trace (record_death death_with_pdf) closed_world =
    [EMv staged_pdf (Ok ()); EStoreConnect (Ok ());
     EFilesFromPaths [staged_pdf] (Ok [staged_pdf_file]);
     EUploadFile staged_pdf_file (Ok "bafy0"); EUnlink staged_pdf (Ok ());
     EAuthorizedRegistrars registrar (Ok false)]
  /\ status (answer (record_death death_with_pdf) closed_world) = 403%Z
  /\ blobs (store (after (record_death death_with_pdf) closed_world)) = ["%PDF-1.7"].
Proof. vm_compute. done. Qed.

(** C4 amended, on the same request. *)
Lemma record_death_unauthorized_on_closed_registry :
  answer (record_death death_with_pdf) closed_world
    = status_json 403 (error_body "Not authorized registrar")
  /\ existsb is_write (trace (record_death death_with_pdf) closed_world) = false
  /\ ledger (after (record_death death_with_pdf) closed_world) = ledger closed_world
  /\ exists file cid evs,
       d_file death_with_pdf = Some file
       /\ run (uploadFileToIPFS file) closed_world
          = (Ok cid, after (record_death death_with_pdf) closed_world, evs)
       /\ trace (record_death death_with_pdf) closed_world
          = (evs ++ [EAuthorizedRegistrars registrar (Ok false)])%list.
Proof.
  apply (record_death_unauthorized closed_world death_with_pdf registrar).
  vm_compute. do 5 apply list_elem_of_further. apply list_elem_of_here.
Defined.

(** C5 fails on the code. A PDF is uploaded while the store's signing key
    is not configured: the blob is staged, the store-client initialization
    throws, and the function rejects without any call to [fs.unlink]; the
    staged file is still in the temporary directory when the operation
    returns. *)
Theorem uploadFileToIPFS_leaves_staged_file :
  (run (uploadFileToIPFS pdf) keyless_world).1.1
    = Thrown "Missing one of: IPFS_STORAGE_KEY, IPFS_STORAGE_PROOF, IPFS_STORAGE_SPACE"
  /\ (run (uploadFileToIPFS pdf) keyless_world).2 = [EMv staged_pdf (Ok ())]
  /\ files (disk (run (uploadFileToIPFS pdf) keyless_world).1.2) !! staged_pdf
     = Some "%PDF-1.7"
  /\ files (disk (after (upload {| u_file := Some pdf |}) keyless_world)) !! staged_pdf
     = Some "%PDF-1.7".
Proof. vm_compute. done. Qed.

(** C6 fails on the code. [POST /upload] with a [text/plain] file is
    answered with status 500 and the invalid-type message, while the request
    without a file is answered with status 400. *)
Theorem upload_invalid_type_is_500 :
  answer (upload {| u_file := Some txt |}) fresh_world =
    status_json 500 (error_body "Invalid file type. Only PDF, JPEG, PNG, or JSON allowed.")
  /\ status (answer (upload {| u_file := None |}) fresh_world) = 400%Z.
Proof. vm_compute. done. Qed.

(** C7 on an identity whose death is recorded under token 7. *)
Lemma search_by_nric_tokenURI_on_mourned :
  status (answer (search_by_nric nric1) (mourned_world 7)) = 200%Z
  /\ field "tokenURI" (body (answer (search_by_nric nric1) (mourned_world 7)))
     = JStr "ipfs://bafycert"
  /\ trace (search_by_nric nric1) (mourned_world 7) =
       [ENricToWallet (JStr nric1) (Ok alice); EIsDeceased (JStr nric1) (Ok true);
        EGetTokenByNric (JStr nric1) (Ok 7%N); ERecords 7 (Ok certificate)].
Proof.
  refine (search_by_nric_tokenURI (mourned_world 7) nric1 registrar alice 7 certificate
            _ _ _ _ _ _).
  all: try (vm_compute; reflexivity).
  discriminate.
Defined.

(** C8 fails on the code. The identity is deceased and its token
    identifier is 0: the answer has [isDeceased] true and a record and a
    [tokenURI], but a null [tokenId]. *)
Theorem search_by_nric_token_zero_is_null :
  answer (search_by_nric nric1) (mourned_world 0) =
    json (JObj [("nric", JStr nric1);
                ("wallet", JStr alice);
                ("isDeceased", JBool true);
                ("tokenId", JNull);
                ("record", JObj [("metadataCID", JStr "bafycert");
                                 ("timestamp", JStr "1700000200")]);
                ("tokenURI", JStr "ipfs://bafycert")])
  /\ trace (search_by_nric nric1) (mourned_world 0) =
       [ENricToWallet (JStr nric1) (Ok alice); EIsDeceased (JStr nric1) (Ok true);
        EGetTokenByNric (JStr nric1) (Ok 0%N); ERecords 0 (Ok certificate)].
Proof. vm_compute. done. Qed.

(** C9 on a [text/plain] file. *)
Lemma uploadFileToIPFS_rejects_text_plain :
  run (uploadFileToIPFS txt) fresh_world =
    (Thrown "Invalid file type. Only PDF, JPEG, PNG, or JSON allowed.", fresh_world, []).
Proof.
  apply (uploadFileToIPFS_rejects_type_first fresh_world txt).
  reflexivity.
Defined.

(** C10 on a request whose [metadataCID] is not a CID at all and whose file
    is of a type that is not allowed: the write carries the supplied string. *)
Lemma record_death_metadataCID_verbatim :
  existsb is_upload_step (trace (record_death death_with_odd_cid) registered_world) = false
  /\ exists r, ERecordDeath (JStr nric1) (JStr "not a cid") r
               ∈ trace (record_death death_with_odd_cid) registered_world.
Proof.
  destruct (proj1 (record_death_metadataCID registered_world (JStr nric1) (Some txt))
              (JStr "not a cid") eq_refl) as (_ & Hsteps & _ & Hwrite).
  split; [exact Hsteps|].
  apply (Hwrite registrar alice); try (vm_compute; reflexivity).
  discriminate.
Defined.

End Checks.

(** ** Further runs on concrete requests *)

Module Runs.
Import InMemory Scenarios.


(** X2 on a wallet that is bound to another NRIC. *)
Lemma bind_identity_wallet_already_bound_on_alice :
  answer (bind_identity bind_alice_again) registered_world =
    status_json 400 (JObj [("error", JStr "Wallet already bound");
                           ("existingNric", JStr nric1)])
  /\ trace (bind_identity bind_alice_again) registered_world =
       [ENricToWallet (JStr nric2) (Ok ZeroAddress); EWalletToNric (JStr alice) (Ok nric1)]
  /\ after (bind_identity bind_alice_again) registered_world = registered_world.
Proof.
  apply (bind_identity_wallet_already_bound registered_world bind_alice_again nric1).
  - vm_compute. apply list_elem_of_here.
  - vm_compute. apply list_elem_of_further, list_elem_of_here.
  - discriminate.
Defined.

(** X3 on the first bind of a fresh NRIC. *)
Lemma bind_identity_write_checked_on_fresh :
  JStr nric1 = b_nric bind_alice /\ JStr alice = b_wallet bind_alice
  /\ truthy (b_nric bind_alice) = true /\ isAddress (b_wallet bind_alice) = true
  /\ strict_eq_str (b_wallet bind_alice) ZeroAddress = false
  /\ exists signer post,
       callerWallet fresh_world = Ok signer
       /\ trace (bind_identity bind_alice) fresh_world =
            ([ENricToWallet (b_nric bind_alice) (Ok ZeroAddress);
              EWalletToNric (b_wallet bind_alice) (Ok "");
              EAuthorizedRegistrars signer (Ok true);
              EBindIdentity (JStr nric1) (JStr alice) (Ok bind_tx)] ++ post)%list.
Proof.
  apply (bind_identity_write_checked fresh_world bind_alice
           (JStr nric1) (JStr alice) (Ok bind_tx)).
  vm_compute. do 3 apply list_elem_of_further. apply list_elem_of_here.
Defined.

(** X4 on the first bind of a fresh NRIC. *)
Lemma bind_identity_succeeds_on_fresh :
  answer (bind_identity bind_alice) fresh_world =
    json (JObj [("message", JStr "Identity bound successfully");
                ("transactionHash", JStr (hash bind_tx));
                ("blockNumber", JNum 101)])
  /\ ledger (after (bind_identity bind_alice) fresh_world)
     = (chain_bind genesis registrar (JStr nric1) (JStr alice)).2
  /\ trace (bind_identity bind_alice) fresh_world =
       [ENricToWallet (b_nric bind_alice) (Ok ZeroAddress);
        EWalletToNric (b_wallet bind_alice) (Ok "");
        EAuthorizedRegistrars registrar (Ok true);
        EBindIdentity (b_nric bind_alice) (b_wallet bind_alice) (Ok bind_tx);
        EWait bind_tx (Ok {| blockNumber := 101 |})].
Proof.
  apply (bind_identity_succeeds fresh_world bind_alice registrar bind_tx
           (chain_bind genesis registrar (JStr nric1) (JStr alice)).2
           {| blockNumber := 101 |}
           (chain_bind genesis registrar (JStr nric1) (JStr alice)).2).
  all: vm_compute; reflexivity.
Defined.

(** X5 on the first bind of a fresh NRIC. *)
Lemma mutation_200_confirmed_on_bind :
  exists e tx rc,
    e ∈ trace (handle (Bind bind_alice)) fresh_world /\ written_tx e = Some tx
    /\ last (trace (handle (Bind bind_alice)) fresh_world) = Some (EWait tx (Ok rc))
    /\ field "transactionHash" (body (answer (handle (Bind bind_alice)) fresh_world))
       = JStr (hash tx)
    /\ field "blockNumber" (body (answer (handle (Bind bind_alice)) fresh_world))
       = JNum (blockNumber rc).
Proof.
  apply (mutation_200_confirmed fresh_world (Bind bind_alice)).
  vm_compute. reflexivity.
Defined.

(** X6 on a bind whose transaction is sent but whose wait is rejected. *)
Lemma mutation_wait_rejected_on_stalled :
  answer (handle (Bind bind_alice)) stalled_world
    = status_json 500 (error_body "could not call wait")
  /\ exists e, e ∈ trace (handle (Bind bind_alice)) stalled_world
               /\ written_tx e = Some bind_tx.
Proof.
  apply (mutation_wait_rejected stalled_world (Bind bind_alice) bind_tx
           "could not call wait").
  vm_compute. do 4 apply list_elem_of_further. apply list_elem_of_here.
Defined.


(** X8 on a PDF sent while the store's signing key is not configured. *)
Lemma record_death_upload_rejected_without_key :
  serve (record_death death_with_pdf) keyless_world =
    (status_json 500
       (error_body "Missing one of: IPFS_STORAGE_KEY, IPFS_STORAGE_PROOF, IPFS_STORAGE_SPACE"),
     (run (uploadFileToIPFS pdf) keyless_world).1.2,
     [EMv staged_pdf (Ok ())]).
Proof.
  apply (record_death_upload_rejected keyless_world death_with_pdf pdf).
  all: vm_compute; reflexivity.
Defined.

(** X9 on a PDF sent for a bound NRIC. *)
Lemma record_death_with_file_on_registered :
  serve (record_death death_with_pdf) registered_world =
    (answer (record_death {| d_nric := JStr nric1; d_metadataCID := JStr "bafy0";
                             d_file := None |})
       (run (uploadFileToIPFS pdf) registered_world).1.2,
     after (record_death {| d_nric := JStr nric1; d_metadataCID := JStr "bafy0";
                            d_file := None |})
       (run (uploadFileToIPFS pdf) registered_world).1.2,
     ((run (uploadFileToIPFS pdf) registered_world).2
        ++ trace (record_death {| d_nric := JStr nric1; d_metadataCID := JStr "bafy0";
                                  d_file := None |})
             (run (uploadFileToIPFS pdf) registered_world).1.2)%list).
Proof.
  apply (record_death_with_file registered_world death_with_pdf pdf "bafy0").
  all: try (vm_compute; reflexivity).
  discriminate.
Defined.

(** X10 on a death recorded with a supplied CID. *)
Lemma record_death_write_checked_on_registered :
  JStr nric1 = d_nric death_with_cid /\ truthy (d_nric death_with_cid) = true
  /\ exists signer b pre post,
       callerWallet registered_world = Ok signer /\ b <> ZeroAddress
       /\ forallb is_upload_step pre = true
       /\ trace (record_death death_with_cid) registered_world =
            (pre ++ [EAuthorizedRegistrars signer (Ok true);
                     ENricToWallet (d_nric death_with_cid) (Ok b);
                     ERecordDeath (JStr nric1) (JStr "bafycert") (Ok death_tx)] ++ post)%list.
Proof.
  apply (record_death_write_checked registered_world death_with_cid
           (JStr nric1) (JStr "bafycert") (Ok death_tx)).
  vm_compute. do 2 apply list_elem_of_further. apply list_elem_of_here.
Defined.

(** X11 on a death recorded with a supplied CID. *)
Lemma record_death_succeeds_on_registered :
  answer (record_death death_with_cid) registered_world =
    json (JObj [("message", JStr "Death recorded and SBT minted");
                ("metadataCID", JStr "bafycert");
                ("transactionHash", JStr (hash death_tx));
                ("blockNumber", JNum 102)])
  /\ ledger (after (record_death death_with_cid) registered_world)
     = (chain_death registered registrar (JStr nric1) (JStr "bafycert")).2
  /\ trace (record_death death_with_cid) registered_world =
       [EAuthorizedRegistrars registrar (Ok true);
        ENricToWallet (d_nric death_with_cid) (Ok alice);
        ERecordDeath (d_nric death_with_cid) (d_metadataCID death_with_cid) (Ok death_tx);
        EWait death_tx (Ok {| blockNumber := 102 |})].
Proof.
  apply (record_death_succeeds registered_world death_with_cid registrar alice death_tx
           (chain_death registered registrar (JStr nric1) (JStr "bafycert")).2
           {| blockNumber := 102 |}
           (chain_death registered registrar (JStr nric1) (JStr "bafycert")).2).
  all: try (vm_compute; reflexivity).
  discriminate.
Defined.

(** X14 on a bind whose wallet read is rejected. *)
Lemma app_rejection_is_500_on_flaky :
  answer (app (PostBindIdentity bind_bob)) flaky_world
    = caught (PostBindIdentity bind_bob) "could not call walletToNric".
Proof.
  apply (app_rejection_is_500 flaky_world (PostBindIdentity bind_bob)
           (EWalletToNric (JStr bob) (Thrown "could not call walletToNric"))).
  - vm_compute. apply list_elem_of_further, list_elem_of_here.
  - reflexivity.
Defined.

(** X16 on an NRIC that was never bound. *)
Lemma search_by_nric_unregistered_on_fresh :
  serve (search_by_nric nric1) fresh_world =
    (status_json 404 (error_body "NRIC not registered"), fresh_world,
     [ENricToWallet (JStr nric1) (Ok ZeroAddress)]).
Proof.
  apply (search_by_nric_unregistered fresh_world nric1 registrar).
  all: vm_compute; reflexivity.
Defined.

(** X17 on a bound NRIC with no death record. *)
Lemma search_by_nric_alive_on_registered :
  serve (search_by_nric nric1) registered_world =
    (json (JObj [("nric", JStr nric1);
                 ("wallet", JStr alice);
                 ("isDeceased", JBool false);
                 ("tokenId", JNull);
                 ("record", JNull);
                 ("tokenURI", JNull)]),
     registered_world,
     [ENricToWallet (JStr nric1) (Ok alice); EIsDeceased (JStr nric1) (Ok false)]).
Proof.
  apply (search_by_nric_alive registered_world nric1 registrar alice).
  all: try (vm_compute; reflexivity).
  discriminate.
Defined.

(** X18 on an identity whose death is recorded under token 7. *)
Lemma search_by_nric_deceased_answer_on_mourned :
  answer (search_by_nric nric1) (mourned_world 7) =
    json (JObj [("nric", JStr nric1);
                ("wallet", JStr alice);
                ("isDeceased", JBool true);
                ("tokenId", JStr (pretty 7%N));
                ("record", JObj [("metadataCID", JStr (metadataCID certificate));
                                 ("timestamp", JStr (pretty (timestamp certificate)))]);
                ("tokenURI", JStr ("ipfs://" +:+ metadataCID certificate))])
  /\ after (search_by_nric nric1) (mourned_world 7) = mourned_world 7.
Proof.
  apply (search_by_nric_deceased_answer (mourned_world 7) nric1 registrar alice 7 certificate).
  all: try (vm_compute; reflexivity).
  all: discriminate.
Defined.

(** X19 on the upload of a PDF. *)
Lemma uploadFileToIPFS_resolved_on_pdf :
  exists f fs,
    let p := tempFilePath_of (now fresh_world) pdf in
    [EMv staged_pdf (Ok ()); EStoreConnect (Ok ());
     EFilesFromPaths [staged_pdf] (Ok [staged_pdf_file]);
     EUploadFile staged_pdf_file (Ok "bafy0"); EUnlink staged_pdf (Ok ())] =
    [EMv p (Ok ()); EStoreConnect (Ok ()); EFilesFromPaths [p] (Ok (f :: fs));
     EUploadFile f (Ok "bafy0"); EUnlink p (Ok ())]
    /\ includes allowedTypes (mimetype pdf) = true.
Proof.
  apply (uploadFileToIPFS_resolved fresh_world pdf "bafy0"
           (run (uploadFileToIPFS pdf) fresh_world).1.2).
  vm_compute. reflexivity.
Defined.

(** X20 on the upload of a PDF. *)
Lemma uploadFileToIPFS_off_ledger_on_pdf :
  ledger (run (uploadFileToIPFS pdf) fresh_world).1.2 = ledger fresh_world
  /\ env (run (uploadFileToIPFS pdf) fresh_world).1.2 = env fresh_world
  /\ now (run (uploadFileToIPFS pdf) fresh_world).1.2 = now fresh_world
  /\ forallb is_upload_step (run (uploadFileToIPFS pdf) fresh_world).2 = true.
Proof.
  apply (uploadFileToIPFS_off_ledger fresh_world pdf
           (run (uploadFileToIPFS pdf) fresh_world).1.1).
  vm_compute. reflexivity.
Defined.

(** X21 on the upload of a PDF: the file was removed after it was submitted. *)
Lemma uploadFileToIPFS_order_on_pdf :
  staged_pdf = tempFilePath_of (now fresh_world) pdf
  /\ exists f cid, EUploadFile f (Ok cid) ∈ (run (uploadFileToIPFS pdf) fresh_world).2.
Proof.
  refine (proj2 (proj2 (proj2
            (uploadFileToIPFS_order fresh_world pdf
               (run (uploadFileToIPFS pdf) fresh_world).1.1
               (run (uploadFileToIPFS pdf) fresh_world).1.2
               (run (uploadFileToIPFS pdf) fresh_world).2 _)))
            staged_pdf (Ok ()) _).
  - vm_compute. reflexivity.
  - vm_compute. do 4 apply list_elem_of_further. apply list_elem_of_here.
Defined.

(** X22 on the upload of a PDF. *)
Lemma upload_200_complete_on_pdf :
  exists file f fs cid,
    u_file {| u_file := Some pdf |} = Some file
    /\ includes allowedTypes (mimetype file) = true
    /\ trace (upload {| u_file := Some pdf |}) fresh_world =
         [EMv (tempFilePath_of (now fresh_world) file) (Ok ()); EStoreConnect (Ok ());
          EFilesFromPaths [tempFilePath_of (now fresh_world) file] (Ok (f :: fs));
          EUploadFile f (Ok cid); EUnlink (tempFilePath_of (now fresh_world) file) (Ok ())]
    /\ body (answer (upload {| u_file := Some pdf |}) fresh_world) = JObj [("cid", JStr cid)].
Proof.
  apply (upload_200_complete fresh_world {| u_file := Some pdf |}).
  vm_compute. reflexivity.
Defined.

(** X25 on a configuration whose private key is made of spaces. *)
Lemma no_wallet_no_ledger_call_on_blank_key :
  serve (search_by_nric nric1) walletless_world =
    (caught (GetSearchByNric nric1)
       "Missing one of: ETHEREUM_PROVIDER_URL, WALLET_PRIVATE_KEY, CONTRACT_ADDRESS",
     walletless_world, []).
Proof.
  apply (proj1 (no_wallet_no_ledger_call walletless_world
                  "Missing one of: ETHEREUM_PROVIDER_URL, WALLET_PRIVATE_KEY, CONTRACT_ADDRESS"
                  eq_refl)).
Defined.

End Runs.
